(** * airtraffic_ANAC: the formatting helpers and the styled chart classes

    A shallow embedding of [package/supply_format.py] and of the parts of
    [package/my_style_classes.py] that decide how a chart object is built
    and which library calls it issues.

    - Python floats are IEEE 754 binary64 values, modelled by the
      executable specification [spec_float] of the Standard Library at
      precision 53 and maximal exponent 1024 (rounding to nearest, ties
      to even, as CPython does).  A Python [int] argument that is exactly
      representable behaves in every operation used here like its float
      image: [/] by a float converts it, and so does the [.0f] format.
    - Python [str] is a sequence of characters, modelled by [string];
      a character is one code point below 256.
    - Python [dict] keeps insertion order and is modelled by an
      association list.
    - seaborn, matplotlib and pandas are external collaborators: a call
      to a plotting library is recorded in a trace with its arguments,
      the results of [corr] and [round] on a dataset are kept as the
      operation applied, and [Series.quantile] is a parameter. *)

From Stdlib Require Import ZArith List String Ascii Bool Lia.
From Stdlib Require Import Permutation.
From Stdlib Require Import SpecFloat DecimalString.
Import ListNotations.

Open Scope string_scope.
Open Scope Z_scope.

(** ** Binary64 floats *)

Module Float.

Definition float := spec_float.

Definition prec : Z := 53.
Definition emax : Z := 1024.

Definition div : float -> float -> float := SFdiv prec emax.
Definition mul : float -> float -> float := SFmul prec emax.
Definition add : float -> float -> float := SFadd prec emax.
Definition sub : float -> float -> float := SFsub prec emax.
Definition eqb : float -> float -> bool := SFeqb.
Definition ltb : float -> float -> bool := SFltb.
Definition leb : float -> float -> bool := SFleb.

(** The float nearest to an integer (Python's [float(n)]). *)
Definition of_Z (n : Z) : float := binary_normalize prec emax n 0 false.

(** The float nearest to [n / d]: how a decimal literal such as [0.1] or
    [1.5] is read. *)
Definition of_ratio (n d : Z) : float := div (of_Z n) (of_Z d).

(** [round_half_even m k] is the integer nearest to [m / 2^k], ties going
    to the even neighbour. *)
Definition round_half_even (m : Z) (k : Z) : Z :=
  let q := Z.shiftr m k in
  let r := m - Z.shiftl q k in
  let half := Z.shiftl 1 (k - 1) in
  match Z.compare r half with
  | Lt => q
  | Gt => q + 1
  | Eq => if Z.even q then q else q + 1
  end.

(** The integer that the float [m * 2^e] rounds to at zero decimals. *)
Definition nearest_integer (m : positive) (e : Z) : Z :=
  if 0 <=? e then Z.shiftl (Zpos m) e else round_half_even (Zpos m) (- e).

Definition decimal (n : Z) : string := NilEmpty.string_of_int (Z.to_int n).

(** Python's [f'{x:.0f}']: the exact binary value rounded to an integer,
    ties to even, printed in decimal; the sign is kept even when the
    magnitude rounds to zero. *)
Definition format_0f (x : float) : string :=
  match x with
  | S754_zero s => if s then "-0" else "0"
  | S754_infinity s => if s then "-inf" else "inf"
  | S754_nan => "nan"
  | S754_finite s m e =>
      (if s then "-" else EmptyString) ++ decimal (nearest_integer m e)
  end.

End Float.

Import Float.

Module supply_format.

(** ** [supply_format.format_ticks] *)

(** The keys of [scale_dict], in the order of the literal. *)
Inductive scale := mil | MM | B | T.

Definition scale_name (s : scale) : string :=
  match s with mil => "mil" | MM => "MM" | B => "B" | T => "T" end.

Definition scale_dict (s : scale) : float :=
  match s with
  | mil => of_Z 1000
  | MM => of_Z 1000000
  | B => of_Z 1000000000
  | T => of_Z 1000000000000
  end.

Definition scale_keys : list scale := [mil; MM; B; T].

Definition scale_items : list (scale * float) :=
  map (fun s => (s, scale_dict s)) scale_keys.

(** [prev_scales.index(scale)] *)
Definition scale_index (s : scale) : Z :=
  match s with mil => 0 | MM => 1 | B => 2 | T => 3 end.

(** [0.1 <= max / unidade < 999]; the quotient is evaluated once. *)
Definition ratio_test (max unidade : float) : bool :=
  let q := div max unidade in
  leb (of_ratio 1 10) q && ltb q (of_Z 999).

(** [prev_scales[index] if index > 0 else ''] with
    [index = prev_scales.index(scale) - 1]. *)
Definition prev_scale (s : scale) : string :=
  let index := scale_index s - 1 in
  if 0 <? index
  then match nth_error scale_keys (Z.to_nat index) with
       | Some p => scale_name p
       | None => EmptyString
       end
  else EmptyString.

(** The body of the loop once the ratio test has passed. *)
Definition format_at (value : float) (s : scale) : string :=
  let formatted_value := div value (scale_dict s) in
  if ltb formatted_value (of_Z 1)
  then format_0f value ++ prev_scale s
  else format_0f formatted_value ++ scale_name s.

(** [for scale, unidade in scale_dict.items(): ...], returning [None] when
    the loop falls through. *)
Fixpoint format_loop (items : list (scale * float)) (value max : float)
  : option string :=
  match items with
  | [] => None
  | (s, unidade) :: rest =>
      if ratio_test max unidade
      then Some (format_at value s)
      else format_loop rest value max
  end.

Definition format_ticks {A : Type} (value : float) (max : option float)
  (_ : option A) : string :=
  let max := match max with None => value | Some m => m end in
  if eqb value (of_Z 0) then format_0f value
  else match format_loop scale_items value max with
       | Some label => label
       | None => format_0f value
       end.

(** ** [supply_format.truncate_label] *)

(** [len(s)] *)
Definition len (s : string) : Z := Z.of_nat (String.length s).

(** [s[:stop]]: a negative [stop] counts from the end, and both ends are
    clipped to the string. *)
Definition slice_to (s : string) (stop : Z) : string :=
  let stop := if stop <? 0 then Z.max 0 (stop + len s)
              else Z.min stop (len s) in
  substring 0 (Z.to_nat stop) s.

(** [length=32] is the default of the keyword parameter. *)
Definition truncate_label (label : string) (length : option Z) : string :=
  let length := match length with None => 32 | Some l => l end in
  if length <? len label then slice_to label length ++ "..." else label.

End supply_format.

Import supply_format.

(** ** Python values *)

Module Py.

(** How an evaluation can fail.  [Unmodelled] marks the places where
    control passes to pandas or to CPython's descriptor machinery on an
    argument whose treatment there is outside this development; the other
    constructors are the Python exceptions of the same name. *)
Inductive exn :=
  AttributeError | KeyError | TypeError | IndexError | Unmodelled.

Inductive result (A : Type) : Type :=
| Ok (a : A)
| Raise (e : exn).

Arguments Ok {A} a.
Arguments Raise {A} e.

Definition bind {A B : Type} (r : result A) (k : A -> result B) : result B :=
  match r with
  | Ok a => k a
  | Raise e => Raise e
  end.

Notation "x <- e ;; k" := (bind e (fun x => k))
  (at level 61, e at next level, right associativity).

(** [for x in xs: acc = step(acc, x)], stopping at the first exception. *)
Fixpoint for_each {A S : Type} (step : S -> A -> result S) (xs : list A)
  (acc : S) : result S :=
  match xs with
  | [] => Ok acc
  | x :: rest => acc' <- step acc x ;; for_each step rest acc'
  end.

(** A pandas [DataFrame]: a table of named numeric columns handed in by
    the caller, or the result of a pandas operation on one, kept as the
    operation applied. *)
Inductive frame :=
| Table (columns : list (string * list float))
| Corr (f : frame)
| Round (f : frame) (decimals : Z).

(** The values that presets (parsed JSON) and overrides are made of. *)
#[warnings="-register-all"]
Inductive value :=
| VNone
| VBool (b : bool)
| VInt (n : Z)
| VFloat (x : float)
| VStr (s : string)
| VList (l : list value)
| VDict (d : list (string * value))
| VFrame (f : frame)
| VSeries (l : list float).

(** A [dict] with string keys, in insertion order. *)
Definition dict := list (string * value).

Fixpoint lookup {V : Type} (k : string) (d : list (string * V)) : option V :=
  match d with
  | [] => None
  | (k', v) :: rest => if String.eqb k k' then Some v else lookup k rest
  end.

(** [k in d] *)
Definition contains {V : Type} (k : string) (d : list (string * V)) : bool :=
  match lookup k d with Some _ => true | None => false end.

Definition keys {V : Type} (d : list (string * V)) : list string :=
  map fst d.

(** [d[k] = v]: an existing key keeps its place. *)
Fixpoint setitem (d : dict) (k : string) (v : value) : dict :=
  match d with
  | [] => [(k, v)]
  | (k', v') :: rest =>
      if String.eqb k k' then (k', v) :: rest
      else (k', v') :: setitem rest k v
  end.

(** [d.update(other)] for a mapping [other]. *)
Definition update (d other : dict) : dict :=
  fold_left (fun acc kv => setitem acc (fst kv) (snd kv)) other d.

(** [k in l] for a list of strings. *)
Definition in_list (k : string) (l : list string) : bool :=
  existsb (String.eqb k) l.

(** The place of index [i] in a sequence of [n] items; a negative index
    counts from the end. *)
Definition position (n : nat) (i : Z) : option nat :=
  let j := if i <? 0 then i + Z.of_nat n else i in
  if (0 <=? j) && (j <? Z.of_nat n) then Some (Z.to_nat j) else None.

Definition as_index (key : value) : option Z :=
  match key with
  | VInt i => Some i
  | VBool b => Some (if b then 1 else 0)
  | _ => None
  end.

(** [container[key]] *)
Definition getitem (container key : value) : result value :=
  match container with
  | VDict d =>
      match key with
      | VStr k =>
          match lookup k d with Some v => Ok v | None => Raise KeyError end
      | VNone | VBool _ | VInt _ | VFloat _ => Raise KeyError
      | VList _ | VDict _ | VFrame _ | VSeries _ => Raise TypeError
      end
  | VList l =>
      match as_index key with
      | Some i =>
          match position (List.length l) i with
          | Some j =>
              match nth_error l j with
              | Some v => Ok v
              | None => Raise IndexError
              end
          | None => Raise IndexError
          end
      | None => Raise TypeError
      end
  | VStr s =>
      match as_index key with
      | Some i =>
          match position (String.length s) i with
          | Some j =>
              match String.get j s with
              | Some c => Ok (VStr (String c EmptyString))
              | None => Raise IndexError
              end
          | None => Raise IndexError
          end
      | None => Raise TypeError
      end
  | VFrame (Table columns) =>
      match key with
      | VStr c =>
          match lookup c columns with
          | Some col => Ok (VSeries col)
          | None => Raise KeyError
          end
      | _ => Raise Unmodelled
      end
  | VFrame _ | VSeries _ => Raise Unmodelled
  | VNone | VBool _ | VInt _ | VFloat _ => Raise TypeError
  end.

(** [v.items()] *)
Definition items (v : value) : result dict :=
  match v with
  | VDict d => Ok d
  | VFrame _ | VSeries _ => Raise Unmodelled
  | _ => Raise AttributeError
  end.

(** [target.update(other)], the new state of [target]. *)
Definition update_method (target : value) (other : dict) : result value :=
  match target with
  | VDict d => Ok (VDict (update d other))
  | VFrame _ | VSeries _ => Raise Unmodelled
  | _ => Raise AttributeError
  end.

(** The unpacking of [v] as keyword arguments of a call. *)
Definition unpack (v : value) : result dict :=
  match v with
  | VDict d => Ok d
  | VFrame _ | VSeries _ => Raise Unmodelled
  | _ => Raise TypeError
  end.

(** [bool(v)] *)
Definition truthy (v : value) : result bool :=
  match v with
  | VNone => Ok false
  | VBool b => Ok b
  | VInt n => Ok (negb (n =? 0))
  | VFloat x => Ok (negb (Float.eqb x (of_Z 0)))
  | VStr s => Ok (negb (String.eqb s EmptyString))
  | VList l => Ok (match l with [] => false | _ => true end)
  | VDict d => Ok (match d with [] => false | _ => true end)
  | VFrame _ | VSeries _ => Raise Unmodelled
  end.

(** [left + right] for a right operand that is a [str]. *)
Definition add_str (left : value) (right : string) : result value :=
  match left with
  | VStr s => Ok (VStr (s ++ right))
  | VFrame _ | VSeries _ => Raise Unmodelled
  | _ => Raise TypeError
  end.

(** The public attributes of the built-in types (CPython 3.12); names
    with two leading underscores are left out. *)
Definition attribute_names (v : value) : list string :=
  match v with
  | VNone => []
  | VBool _ | VInt _ =>
      ["as_integer_ratio"; "bit_count"; "bit_length"; "conjugate";
       "denominator"; "from_bytes"; "imag"; "is_integer"; "numerator";
       "real"; "to_bytes"]
  | VFloat _ =>
      ["as_integer_ratio"; "conjugate"; "fromhex"; "hex"; "imag";
       "is_integer"; "real"]
  | VStr _ =>
      ["capitalize"; "casefold"; "center"; "count"; "encode"; "endswith";
       "expandtabs"; "find"; "format"; "format_map"; "index"; "isalnum";
       "isalpha"; "isascii"; "isdecimal"; "isdigit"; "isidentifier";
       "islower"; "isnumeric"; "isprintable"; "isspace"; "istitle";
       "isupper"; "join"; "ljust"; "lower"; "lstrip"; "maketrans";
       "partition"; "removeprefix"; "removesuffix"; "replace"; "rfind";
       "rindex"; "rjust"; "rpartition"; "rsplit"; "rstrip"; "split";
       "splitlines"; "startswith"; "strip"; "swapcase"; "title";
       "translate"; "upper"; "zfill"]
  | VList _ =>
      ["append"; "clear"; "copy"; "count"; "extend"; "index"; "insert";
       "pop"; "remove"; "reverse"; "sort"]
  | VDict _ =>
      ["clear"; "copy"; "fromkeys"; "get"; "items"; "keys"; "pop";
       "popitem"; "setdefault"; "update"; "values"]
  | VFrame _ | VSeries _ => []
  end.

(** [hasattr(v, name)]: attributes, not keys. *)
Definition hasattr (v : value) (name : string) : result bool :=
  match v with
  | VFrame _ | VSeries _ => Raise Unmodelled
  | _ => Ok (in_list name (attribute_names v))
  end.

End Py.

Import Py.

(** ** [my_style_classes] *)

Module my_style_classes.

(** *** [fast_instance] *)

(** [v is not None] *)
Definition is_not_none (v : value) : bool :=
  match v with VNone => false | _ => true end.

(** [fast_instance(data, x, y, title)]: [locals().get(name)] is the
    parameter of that name, and a parameter left out is [None].  The
    result is a dictionary of dictionaries, the shape of the keyword
    arguments of the classes. *)
Definition fast_instance (data x y title : value) : list (string * dict) :=
  let grafico :=
    fold_left
      (fun grafico arg =>
         if is_not_none (snd arg)
         then setitem grafico (fst arg) (snd arg)
         else grafico)
      [("x", x); ("y", y)] [("data", data)] in
  let chart_instance := [("grafico", grafico)] in
  if is_not_none title
  then (chart_instance ++ [("titulo", [("label", title)])])%list
  else chart_instance.

(** An instance of one of the classes is its [__dict__]. *)
Definition instance := dict.

(** [self.name], for the names the classes read: none of them is defined
    on a class, so the instance dictionary decides. *)
Definition getattr (self : instance) (name : string) : result value :=
  match lookup name self with
  | Some v => Ok v
  | None => Raise AttributeError
  end.

(** Names whose assignment CPython hands to a descriptor of the class
    instead of storing it in the instance dictionary. *)
Definition intercepted (name : string) : bool :=
  in_list name ["__class__"; "__dict__"; "__weakref__"].

(** [setattr(self, name, v)] *)
Definition setattr (self : instance) (name : string) (v : value)
  : result instance :=
  if intercepted name then Raise Unmodelled else Ok (setitem self name v).

(** [self.name(...)] for a method [name] with body [body]: an instance
    attribute of that name shadows the method, and no value of the model
    can be called. *)
Definition call_method {A : Type} (self : instance) (name : string)
  (body : result A) : result A :=
  if contains name self then Raise TypeError else body.

(** *** class [My_styles] *)

Module My_styles.

(** [self.__type_style], under the name the compiler gives a private
    attribute of class [My_styles]. *)
Definition type_style_attr : string := "_My_styles__type_style".

(** [estilo] is the parsed content of [styles/my_styles.json]. *)
Definition read_styles (estilo : value) (self : instance) : result instance :=
  type_style <- getattr self type_style_attr ;;
  preset <- getitem estilo type_style ;;
  sections <- items preset ;;
  for_each (fun self kv => setattr self (fst kv) (snd kv)) sections self.

Definition update_style_for_dict (self : instance)
  (kwargs : list (string * dict)) : result instance :=
  for_each
    (fun self kv =>
       let chave := fst kv in
       let valor := snd kv in
       if contains chave self
       then attr <- getattr self chave ;;
            attr' <- update_method attr valor ;;
            Ok (setitem self chave attr')
       else Ok self)
    kwargs self.

(** [kwargs] holds the keyword arguments that are not parameters, each a
    mapping; Python never puts the names [self] and [type_style] there. *)
Definition __init__ (estilo : value) (type_style : string)
  (kwargs : list (string * dict)) : result instance :=
  let self := [(type_style_attr, VStr type_style)] in
  self <- call_method self "read_styles" (read_styles estilo self) ;;
  call_method self "update_style_for_dict" (update_style_for_dict self kwargs).

End My_styles.

(** [super().__init__(type_style=name, **kwargs)] in a subclass: the
    keyword [type_style] cannot come a second time from [kwargs]. *)
Definition super_init (estilo : value) (name : string)
  (kwargs : list (string * dict)) : result instance :=
  if contains "type_style" kwargs then Raise TypeError
  else My_styles.__init__ estilo name kwargs.

(** *** Calls into seaborn and matplotlib *)

Inductive call :=
| sns_reset_defaults
| sns_set (kw : dict)
| sns_set_palette (palette : value)
| sns_boxplot (kw : dict)
| sns_heatmap (kw : dict)
| plt_figure (kw : dict)
| plt_title (kw : dict)
| plt_show.

(** A computation that issues library calls: the calls made, in order,
    and how it ended. *)
Definition M (A : Type) : Type := (list call * result A)%type.

Definition mbind {A B : Type} (m : M A) (k : A -> M B) : M B :=
  match m with
  | (t, Ok a) => let (t', r) := k a in ((t ++ t')%list, r)
  | (t, Raise e) => (t, Raise e)
  end.

Definition emit (c : call) : M unit := ([c], Ok tt).

Definition lift {A : Type} (r : result A) : M A := ([], r).

Notation "x <~ e ;; k" := (mbind e (fun x => k))
  (at level 61, e at next level, right associativity).
Notation "e ;;; k" := (mbind e (fun _ => k))
  (at level 61, right associativity).

(** A call with the keywords [explicit] written out and the mapping
    [extra] unpacked after them: a keyword given twice is a [TypeError]. *)
Definition keywords (explicit extra : dict) : result dict :=
  if existsb (fun k => contains k explicit) (keys extra)
  then Raise TypeError
  else Ok (explicit ++ extra)%list.

(** [self.estilo if hasattr(self, 'estilo') and self.estilo else {}],
    unpacked. *)
Definition style_arguments (self : instance) : result dict :=
  if contains "estilo" self
  then estilo <- getattr self "estilo" ;;
       t <- truthy estilo ;;
       if t then unpack estilo else Ok []
  else Ok [].

(** [self.estilo['palette'] if hasattr(self.estilo, 'palette') else {}] *)
Definition palette_argument (self : instance) : result value :=
  estilo <- getattr self "estilo" ;;
  has <- hasattr estilo "palette" ;;
  if has then getitem estilo (VStr "palette") else Ok (VDict []).

(** The decorator [pre_make]: [pre_make func] is its [closure]. *)
Definition pre_make (func : instance -> M unit) (self : instance) : M unit :=
  emit sns_reset_defaults ;;;
  kw <~ lift (style_arguments self) ;;
  emit (sns_set kw) ;;;
  tamanho <~ lift (getattr self "tamanho") ;;
  kw <~ lift (unpack tamanho) ;;
  emit (plt_figure kw) ;;;
  titulo <~ lift (getattr self "titulo") ;;
  kw <~ lift (unpack titulo) ;;
  emit (plt_title kw) ;;;
  func self ;;;
  palette <~ lift (palette_argument self) ;;
  emit (sns_set_palette palette) ;;;
  emit plt_show.

(** The decorator [decorator_filter_kw]: [decorator_filter_kw my_list]
    replaces the method by this [closure]. *)
Definition decorator_filter_kw (my_list : list string) (self : instance)
  : result dict :=
  grafico <- getattr self "grafico" ;;
  entries <- items grafico ;;
  Ok (fold_left
        (fun filter_kwargs kv =>
           if negb (in_list (fst kv) my_list)
           then setitem filter_kwargs (fst kv) (snd kv)
           else filter_kwargs)
        entries []).

(** *** class [My_boxplot] *)

(** pandas' [Series.quantile], a parameter of the development. *)
Class Pandas := { Series_quantile : list float -> float -> float }.

Module My_boxplot.

(** [self.grafico["data"][self.grafico["y"]]] *)
Definition y_column (self : instance) : result value :=
  grafico <- getattr self "grafico" ;;
  data <- getitem grafico (VStr "data") ;;
  grafico <- getattr self "grafico" ;;
  y <- getitem grafico (VStr "y") ;;
  getitem data y.

(** [sum((column < lower_bound) | (column > upper_bound))] on a Series. *)
Definition count_outside (column : list float) (lower_bound upper_bound : float)
  : Z :=
  fold_left
    (fun total v =>
       total + (if ltb v lower_bound || ltb upper_bound v then 1 else 0))
    column 0.

(** The column is read four times and nothing changes it in between; the
    first use, [.quantile(0.25)], decides whether it is a Series. *)
Definition quantidade_outliers `{Pandas} (self : instance) : result Z :=
  column <- y_column self ;;
  match column with
  | VSeries l =>
      let Q1 := Series_quantile l (of_ratio 1 4) in
      let Q3 := Series_quantile l (of_ratio 3 4) in
      let IQR := sub Q3 Q1 in
      let lower_bound := sub Q1 (mul (of_ratio 3 2) IQR) in
      let upper_bound := add Q3 (mul (of_ratio 3 2) IQR) in
      Ok (count_outside l lower_bound upper_bound)
  | VFrame _ => Raise Unmodelled
  | _ => Raise AttributeError
  end.

(** The text of [f"\nNúmero de Outliers:{n}"]; character 010 is the line
    feed and character 250 is u with acute accent. *)
Definition outliers_note (n : Z) : string :=
  String "010" ("N" ++ String "250" ("mero de Outliers:" ++ decimal n)).

(** [target[key] = v] *)
Definition setitem_method (target : value) (key : string) (v : value)
  : result value :=
  match target with
  | VDict d => Ok (VDict (setitem d key v))
  | VFrame _ | VSeries _ => Raise Unmodelled
  | _ => Raise TypeError
  end.

Definition __init__ `{Pandas} (estilo : value) (kwargs : list (string * dict))
  : result instance :=
  self <- super_init estilo "boxplot" kwargs ;;
  titulo <- getattr self "titulo" ;;
  label <- getitem titulo (VStr "label") ;;
  n <- call_method self "quantidade_outliers" (quantidade_outliers self) ;;
  label' <- add_str label (outliers_note n) ;;
  titulo <- getattr self "titulo" ;;
  titulo' <- setitem_method titulo "label" label' ;;
  Ok (setitem self "titulo" titulo').

(** The undecorated [make]. *)
Definition make_body (self : instance) : M unit :=
  grafico <~ lift (getattr self "grafico") ;;
  kw <~ lift (unpack grafico) ;;
  emit (sns_boxplot kw).

Definition make : instance -> M unit := pre_make make_body.

End My_boxplot.

(** *** class [My_headmap] *)

Module My_headmap.

Definition __init__ (estilo : value) (kwargs : list (string * dict))
  : result instance :=
  super_init estilo "heatmap" kwargs.

Definition filter_kwargs : instance -> result dict :=
  decorator_filter_kw ["data"; "x"; "y"].

(** [round(data.corr(), 2)] *)
Definition correlation_matrix (data : value) : result value :=
  match data with
  | VFrame f => Ok (VFrame (Round (Corr f) 2))
  | VSeries _ => Raise Unmodelled
  | _ => Raise AttributeError
  end.

(** The undecorated [make]. *)
Definition make_body (self : instance) : M unit :=
  grafico <~ lift (getattr self "grafico") ;;
  data <~ lift (getitem grafico (VStr "data")) ;;
  matrix <~ lift (correlation_matrix data) ;;
  grafico <~ lift (getattr self "grafico") ;;
  x <~ lift (getitem grafico (VStr "x")) ;;
  grafico <~ lift (getattr self "grafico") ;;
  y <~ lift (getitem grafico (VStr "y")) ;;
  extra <~ lift (call_method self "filter_kwargs" (filter_kwargs self)) ;;
  kw <~ lift (keywords [("data", matrix); ("xticklabels", x);
                        ("yticklabels", y)] extra) ;;
  emit (sns_heatmap kw).

Definition make : instance -> M unit := pre_make make_body.

End My_headmap.

End my_style_classes.

Import my_style_classes.

(** ** Notions used to state the properties of [format_ticks] *)

(** [selects max s]: [s] is the first key of the ladder whose unit passes
    the ratio test against [max]. *)
Definition selects (max : float) (s : scale) : Prop :=
  ratio_test max (scale_dict s) = true /\
  forall s', scale_index s' < scale_index s ->
             ratio_test max (scale_dict s') = false.

(** The default of the second parameter: [if max is None: max = value]. *)
Definition effective_max (value : float) (max : option float) : float :=
  match max with None => value | Some m => m end.

(** The fallback suffix as the specification words it: the name of the
    next smaller scale, and nothing below the smallest one. *)
Definition previous_scale_name (s : scale) : string :=
  match s with mil => EmptyString | MM => "mil" | B => "MM" | T => "B" end.

(** A float with the sign bit set, or no number at all. *)
Definition signed_or_nan (x : float) : Prop :=
  match x with
  | S754_zero s | S754_infinity s | S754_finite s _ _ => s = true
  | S754_nan => True
  end.

(** ** Notions used to state the properties of the classes *)

(** The sections of the preset that [My_styles.read_styles] loads for a
    chart type. *)
Definition preset_sections (estilo : value) (type_style : string)
  : result dict :=
  preset <- getitem estilo (VStr type_style) ;;
  items preset.


(** The outlier count as the specification words it: the values strictly
    below [Q1 - 1.5 * IQR] or strictly above [Q3 + 1.5 * IQR], where
    [IQR = Q3 - Q1]. *)
Definition iqr_lower (Q1 Q3 : float) : float :=
  sub Q1 (mul (of_ratio 3 2) (sub Q3 Q1)).

Definition iqr_upper (Q1 Q3 : float) : float :=
  add Q3 (mul (of_ratio 3 2) (sub Q3 Q1)).

Definition iqr_outliers (Q1 Q3 : float) (column : list float) : list float :=
  filter (fun v => ltb v (iqr_lower Q1 Q3) || ltb (iqr_upper Q1 Q3) v) column.

(** *** A model of [Series.quantile] *)

Fixpoint insert_sorted (x : float) (l : list float) : list float :=
  match l with
  | [] => [x]
  | y :: rest => if leb x y then x :: l else y :: insert_sorted x rest
  end.

Definition sort_floats (l : list float) : list float :=
  fold_right insert_sorted [] l.

(** The integer part of a float that is not negative. *)
Definition floor_float (x : float) : Z :=
  match x with
  | S754_finite false m e =>
      if 0 <=? e then Z.shiftl (Zpos m) e else Z.shiftr (Zpos m) (- e)
  | _ => 0
  end.

(** Modelled from the spec: pandas' [Series.quantile] belongs to an
    external library, not to the repository.  The specification reads
    [Q1] and [Q3] as the 25th and 75th percentiles, 2 and 4 on
    [[1,2,3,4,100]]; this is the default of pandas, linear interpolation
    between the two order statistics around position [q * (n - 1)], the
    missing values (NaN) left aside. *)
Definition linear_quantile (l : list float) (q : float) : float :=
  let sorted := sort_floats (filter (fun x => eqb x x) l) in
  match sorted with
  | [] => S754_nan
  | first :: _ =>
      let n := Z.of_nat (List.length sorted) in
      let h := mul q (of_Z (n - 1)) in
      let i := floor_float h in
      let gamma := sub h (of_Z i) in
      let a := nth (Z.to_nat i) sorted first in
      let b := nth (Z.to_nat (Z.min (i + 1) (n - 1))) sorted first in
      add a (mul (sub b a) gamma)
  end.

#[export] Instance pandas_linear : Pandas :=
  {| Series_quantile := linear_quantile |}.

(** *** A sample preset

    [styles/my_styles.json] is not among the sources; this is a file of
    the documented shape, chart types mapping to sections of options. *)
Definition sample_estilo : value :=
  VDict
    [("boxplot",
      VDict
        [("estilo", VDict [("style", VStr "whitegrid");
                           ("palette", VStr "pastel")]);
         ("tamanho", VDict [("figsize", VList [VInt 8; VInt 6])]);
         ("titulo", VDict [("label", VStr "Boxplot"); ("fontsize", VInt 14)]);
         ("grafico", VDict [("color", VStr "skyblue");
                            ("width", VFloat (of_ratio 1 2))])]);
     ("heatmap",
      VDict
        [("estilo", VDict [("style", VStr "white")]);
         ("tamanho", VDict [("figsize", VList [VInt 8; VInt 6])]);
         ("titulo", VDict [("label", VStr "Heatmap")]);
         ("grafico", VDict [("annot", VBool true);
                            ("cmap", VStr "coolwarm")])])].

(** The dataset of the specification's example: one column, [y]. *)
Definition sample_frame : frame :=
  Table [("y", map of_Z [1; 2; 3; 4; 100])].

(** ** Further notions for [format_ticks] *)

(** A maximum that can pass no ratio test: not a number, infinite, zero,
    or with the sign bit set. *)
Definition degenerate (max : float) : Prop :=
  match max with
  | S754_nan | S754_infinity _ | S754_zero _ => True
  | S754_finite s _ _ => s = true
  end.

(** A number below zero. *)
Definition negative (x : float) : Prop :=
  match x with
  | S754_infinity true | S754_finite true _ _ => True
  | _ => False
  end.

(** The suffix of the fallback branch, scale by scale. *)
Definition fallback_suffix (s : scale) : string :=
  match s with mil | MM => EmptyString | B => "MM" | T => "B" end.

(** ** Further notions for the classes *)

(** A value of the preset that is no mapping: [null], a truth value, a
    number, a text or a list. *)
Definition not_mapping (v : value) : Prop :=
  match v with
  | VNone | VBool _ | VInt _ | VFloat _ | VStr _ | VList _ => True
  | VDict _ | VFrame _ | VSeries _ => False
  end.

(** * Properties *)

(** ** [format_ticks] *)

(** *** Comparisons *)

Lemma SFcompare_antisym (x y : float) (c : comparison) :
  SFcompare x y = Some c -> SFcompare y x = Some (CompOpp c).
Proof.
  destruct x as [sx | sx | | sx mx ex], y as [sy | sy | | sy my ey];
    simpl; try discriminate;
    try (destruct sx; intros [= <-]; reflexivity);
    try (destruct sy; intros [= <-]; reflexivity);
    try (destruct sx, sy; intros [= <-]; reflexivity).
  rewrite (Z.compare_antisym ex ey).
  destruct sx, sy; intros [= <-]; try reflexivity;
    destruct (ex ?= ey); simpl; try reflexivity;
    rewrite (Pos.compare_cont_antisym mx my Eq); simpl;
    now rewrite ?CompOpp_involutive.
Qed.

Lemma leb_not_ltb (x y : float) : leb x y = true -> ltb y x = false.
Proof.
  unfold leb, ltb, SFleb, SFltb.
  destruct (SFcompare x y) as [c |] eqn:E; [| discriminate].
  rewrite (SFcompare_antisym _ _ _ E).
  destruct c; simpl; congruence.
Qed.

Lemma eqb_zero_inv (x : float) :
  eqb x (of_Z 0) = true -> exists s, x = S754_zero s.
Proof.
  destruct x as [s | s | | s m e]; simpl; try discriminate.
  - now exists s.
  - destruct s; discriminate.
  - destruct s; discriminate.
Qed.

Lemma scale_dict_finite (s : scale) :
  exists m e, scale_dict s = S754_finite false m e.
Proof. destruct s; eexists; eexists; vm_compute; reflexivity. Qed.

(** A zero tick scales to a zero, which is below one. *)
Lemma zero_scaled_below_one (x : float) (s : scale) :
  eqb x (of_Z 0) = true -> leb (of_Z 1) (div x (scale_dict s)) = false.
Proof.
  intros H. destruct (eqb_zero_inv _ H) as [sx ->].
  destruct (scale_dict_finite s) as (m & e & ->).
  destruct sx; reflexivity.
Qed.

(** *** Negative maxima and small integers *)

Lemma binary_round_aux_sign (mx ex : Z) (lx : location) :
  signed_or_nan (binary_round_aux prec emax true mx ex lx).
Proof.
  unfold binary_round_aux.
  destruct (shr_fexp prec emax mx ex lx) as [mrs' e'].
  destruct (shr_fexp prec emax _ e' loc_Exact) as [mrs'' e''].
  destruct (shr_m mrs'') as [| p | p]; simpl; auto.
  now destruct (e'' <=? 971).
Qed.

Lemma of_Z_negative (n : Z) : n < 0 -> signed_or_nan (of_Z n).
Proof.
  destruct n as [| p | p]; try lia. intros _.
  unfold of_Z, binary_normalize, binary_round.
  destruct (shl_align _ _ _) as [mz ez]. apply binary_round_aux_sign.
Qed.

Lemma div_signed (x : float) (s : scale) :
  signed_or_nan x -> signed_or_nan (div x (scale_dict s)).
Proof.
  destruct (scale_dict_finite s) as (m & e & ->).
  destruct x as [sx | sx | | sx mx ex]; simpl; intros H; subst; auto.
  unfold div, SFdiv.
  destruct (SFdiv_core_binary _ _ _ _ _ _) as [[mz ez] lz].
  apply binary_round_aux_sign.
Qed.

Lemma ratio_test_signed (x : float) (s : scale) :
  signed_or_nan x -> ratio_test x (scale_dict s) = false.
Proof.
  intros H. apply (div_signed _ s) in H. unfold ratio_test.
  destruct (div x (scale_dict s)) as [sq | sq | | sq mq eq];
    simpl in H; subst; reflexivity.
Qed.

(** The non-negative integers below 100, checked one by one. *)
Lemma ratio_test_small (n : Z) (s : scale) :
  0 <= n < 100 -> ratio_test (of_Z n) (scale_dict s) = false.
Proof.
  intros H.
  assert (E : forallb
                (fun k => forallb
                            (fun s => negb (ratio_test (of_Z (Z.of_nat k))
                                                       (scale_dict s)))
                            scale_keys)
                (seq 0 100) = true) by (vm_compute; reflexivity).
  rewrite forallb_forall in E.
  specialize (E (Z.to_nat n)). rewrite Z2Nat.id in E by lia.
  assert (Hin : In (Z.to_nat n) (seq 0 100)) by (apply in_seq; lia).
  specialize (E Hin). rewrite forallb_forall in E.
  specialize (E s). apply negb_true_iff. apply E. destruct s; simpl; auto.
Qed.

Lemma ratio_test_below_100_int (n : Z) (s : scale) :
  n < 100 -> ratio_test (of_Z n) (scale_dict s) = false.
Proof.
  intros H. destruct (Z.neg_nonneg_cases n).
  - apply ratio_test_signed. now apply of_Z_negative.
  - apply ratio_test_small. lia.
Qed.

(** *** The loop *)

Lemma format_loop_selects (value max : float) (s : scale) :
  selects max s ->
  format_loop scale_items value max = Some (format_at value s).
Proof.
  intros [Hs Hlt].
  assert (Hmil := Hlt mil). assert (HMM := Hlt MM). assert (HB := Hlt B).
  unfold scale_items, scale_keys.
  destruct s; cbn [map format_loop scale_index] in *;
    repeat match goal with
           | H : ?a < ?b -> _ |- _ =>
               first [ rewrite (H ltac:(lia)) | clear H ]
           end;
    now rewrite Hs.
Qed.

Lemma format_loop_none (value max : float) :
  (forall s, ratio_test max (scale_dict s) = false) ->
  format_loop scale_items value max = None.
Proof.
  intros H. unfold scale_items, scale_keys. cbn [map format_loop].
  now rewrite (H mil), (H MM), (H B), (H T).
Qed.

Lemma selects_unique (max : float) (s s' : scale) :
  selects max s -> selects max s' -> s = s'.
Proof.
  intros [H1 L1] [H2 L2].
  destruct (Z.lt_trichotomy (scale_index s) (scale_index s')) as [H | [H | H]].
  - rewrite (L2 _ H) in H1. discriminate.
  - destruct s, s'; simpl in H; try lia; reflexivity.
  - rewrite (L1 _ H) in H2. discriminate.
Qed.

(** Either some scale is selected or every scale fails the test. *)
Lemma selects_or_none (max : float) :
  (exists s, selects max s) \/
  (forall s, ratio_test max (scale_dict s) = false).
Proof.
  destruct (ratio_test max (scale_dict mil)) eqn:E0.
  { left; exists mil; split; [assumption | intros []; simpl; lia]. }
  destruct (ratio_test max (scale_dict MM)) eqn:E1.
  { left; exists MM; split; [assumption |].
    intros []; simpl; intros; try lia; assumption. }
  destruct (ratio_test max (scale_dict B)) eqn:E2.
  { left; exists B; split; [assumption |].
    intros []; simpl; intros; try lia; assumption. }
  destruct (ratio_test max (scale_dict T)) eqn:E3.
  { left; exists T; split; [assumption |].
    intros []; simpl; intros; try lia; assumption. }
  right; intros []; assumption.
Qed.

Lemma format_ticks_nonzero {A : Type} (value : float) (max : option float)
  (p : option A) :
  eqb value (of_Z 0) = false ->
  format_ticks value max p =
  match format_loop scale_items value (effective_max value max) with
  | Some label => label
  | None => format_0f value
  end.
Proof. intros H. unfold format_ticks, effective_max. now rewrite H. Qed.

(** [selects] at concrete floats: the test of the scale and of those
    before it evaluate. *)
Ltac evaluate_selects :=
  split;
  [ vm_compute; reflexivity
  | let s' := fresh "s" in
    let H := fresh "H" in
    intros s'; destruct s'; cbn [scale_index]; intros H;
    try lia; vm_compute; reflexivity ].

(** *** The claims about [format_ticks] *)

(** C2. The ladder is mil = 1e3, MM = 1e6, B = 1e9, T = 1e12 in this order;
    whenever [s] is the first scale of the ladder with
    [0.1 <= max / unit(s) < 999] and [value / unit(s) >= 1], the result is
    [value / unit(s)] printed with zero decimals followed by the name of
    [s]; and [format_ticks(1_500_000, max=1_500_000)] is ["2MM"]. *)
Theorem format_ticks_scaled :
  map (fun s => (scale_name s, scale_dict s)) scale_keys =
    [("mil", of_Z (10 ^ 3)); ("MM", of_Z (10 ^ 6));
     ("B", of_Z (10 ^ 9)); ("T", of_Z (10 ^ 12))]
  /\ (forall (A : Type) (value : float) (max : option float) (p : option A)
             (s : scale),
        selects (effective_max value max) s ->
        leb (of_Z 1) (div value (scale_dict s)) = true ->
        format_ticks value max p =
        format_0f (div value (scale_dict s)) ++ scale_name s)
  /\ format_ticks (of_Z 1500000) (Some (of_Z 1500000)) (@None unit) = "2MM".
Proof.
  split; [reflexivity |]. split; [| vm_compute; reflexivity].
  intros A value max p s Hsel Hge.
  assert (Hnz : eqb value (of_Z 0) = false).
  { destruct (eqb value (of_Z 0)) eqn:E; [| reflexivity].
    rewrite (zero_scaled_below_one _ s E) in Hge. discriminate. }
  rewrite (format_ticks_nonzero _ _ _ Hnz), (format_loop_selects _ _ _ Hsel).
  unfold format_at. now rewrite (leb_not_ltb _ _ Hge).
Qed.

Lemma format_ticks_scaled_witness :
  selects (effective_max (of_Z 1500000) (Some (of_Z 1500000))) MM /\
  leb (of_Z 1) (div (of_Z 1500000) (scale_dict MM)) = true /\
  format_ticks (of_Z 1500000) (Some (of_Z 1500000)) (@None unit) =
  format_0f (div (of_Z 1500000) (scale_dict MM)) ++ scale_name MM.
Proof.
  assert (Hsel : selects (effective_max (of_Z 1500000)
                                        (Some (of_Z 1500000))) MM).
  { evaluate_selects. }
  assert (Hge : leb (of_Z 1) (div (of_Z 1500000) (scale_dict MM)) = true)
    by (vm_compute; reflexivity).
  split; [exact Hsel |]. split; [exact Hge |].
  exact (proj1 (proj2 format_ticks_scaled) unit _ _ None MM Hsel Hge).
Defined.

(** C1 as stated fails: with [max = 1_500_000] the selected scale is MM,
    the tick [500_000] scales to [0.5 < 1], and the result is ["500000"],
    not ["500000mil"]. *)
Lemma format_ticks_fallback_previous_fails :
  selects (of_Z 1500000) MM /\
  ltb (div (of_Z 500000) (scale_dict MM)) (of_Z 1) = true /\
  format_ticks (of_Z 500000) (Some (of_Z 1500000)) (@None unit) = "500000" /\
  format_ticks (of_Z 500000) (Some (of_Z 1500000)) (@None unit) <>
  format_0f (of_Z 500000) ++ previous_scale_name MM.
Proof.
  split.
  { evaluate_selects. }
  split; [vm_compute; reflexivity |].
  split; [vm_compute; reflexivity |].
  vm_compute. discriminate.
Qed.

(** C1, amended.  For a nonzero [value], when [s] is the first scale with
    [0.1 <= max / unit(s) < 999] and [value / unit(s) < 1], the result is
    the unscaled [value] printed with zero decimals, followed by nothing
    when [s] is mil or MM, by "MM" when [s] is B and by "B" when [s] is
    T. *)
Theorem format_ticks_fallback (A : Type) (value : float)
  (max : option float) (p : option A) (s : scale) :
  eqb value (of_Z 0) = false ->
  selects (effective_max value max) s ->
  ltb (div value (scale_dict s)) (of_Z 1) = true ->
  format_ticks value max p =
  format_0f value ++
  match s with mil | MM => EmptyString | B => "MM" | T => "B" end.
Proof.
  intros Hnz Hsel Hlt.
  rewrite (format_ticks_nonzero _ _ _ Hnz), (format_loop_selects _ _ _ Hsel).
  unfold format_at. rewrite Hlt. now destruct s.
Qed.

Lemma format_ticks_fallback_witness :
  eqb (of_Z 5) (of_Z 0) = false /\
  selects (effective_max (of_Z 5) (Some (of_Z 2000000000))) B /\
  ltb (div (of_Z 5) (scale_dict B)) (of_Z 1) = true /\
  format_ticks (of_Z 5) (Some (of_Z 2000000000)) (@None unit) = "5MM".
Proof.
  assert (Hnz : eqb (of_Z 5) (of_Z 0) = false) by (vm_compute; reflexivity).
  assert (Hsel : selects (effective_max (of_Z 5) (Some (of_Z 2000000000))) B).
  { evaluate_selects. }
  assert (Hlt : ltb (div (of_Z 5) (scale_dict B)) (of_Z 1) = true)
    by (vm_compute; reflexivity).
  repeat (split; [assumption |]).
  exact (format_ticks_fallback unit _ _ None B Hnz Hsel Hlt).
Defined.

(** C7. For a nonzero [value], when no scale of the ladder passes the
    ratio test against [max], the result is [value] printed with zero
    decimals and no suffix.  No scale passes for an integer [max] below
    100, and [format_ticks(50, max=50)] is ["50"]. *)
Theorem format_ticks_unscaled :
  (forall (A : Type) (value : float) (max : option float) (p : option A),
      eqb value (of_Z 0) = false ->
      (forall s, ratio_test (effective_max value max) (scale_dict s) = false) ->
      format_ticks value max p = format_0f value)
  /\ (forall (n : Z) (s : scale),
         n < 100 -> ratio_test (of_Z n) (scale_dict s) = false)
  /\ format_ticks (of_Z 50) (Some (of_Z 50)) (@None unit) = "50".
Proof.
  split; [| split; [exact ratio_test_below_100_int | vm_compute; reflexivity]].
  intros A value max p Hnz Hnone.
  now rewrite (format_ticks_nonzero _ _ _ Hnz), (format_loop_none _ _ Hnone).
Qed.

Lemma format_ticks_unscaled_witness :
  eqb (of_Z 50) (of_Z 0) = false /\
  (forall s, ratio_test (effective_max (of_Z 50) (Some (of_Z 50)))
                        (scale_dict s) = false) /\
  format_ticks (of_Z 50) (Some (of_Z 50)) (@None unit) = format_0f (of_Z 50).
Proof.
  assert (Hnz : eqb (of_Z 50) (of_Z 0) = false) by (vm_compute; reflexivity).
  assert (Hnone : forall s,
             ratio_test (effective_max (of_Z 50) (Some (of_Z 50)))
                        (scale_dict s) = false)
    by (intros []; vm_compute; reflexivity).
  split; [exact Hnz |]. split; [exact Hnone |].
  exact (proj1 format_ticks_unscaled unit _ _ None Hnz Hnone).
Defined.

(** C10. The third parameter is ignored: any two third arguments, of any
    types, give the same label. *)
Theorem format_ticks_ignores_third (A B' : Type) (value : float)
  (max : option float) (p : option A) (q : option B') :
  format_ticks value max p = format_ticks value max q.
Proof. reflexivity. Qed.

(** Around the threshold of the smallest scale: the largest float below
    100 passes no test, 100 passes the first one. *)
Example ratio_test_below_100 :
  forall s, ratio_test (S754_finite false 7036874417766399 (-46))
                       (scale_dict s) = false.
Proof. intros []; vm_compute; reflexivity. Qed.

Example ratio_test_at_100 : selects (of_Z 100) mil.
Proof. evaluate_selects. Qed.

(** The call at the end of the module. *)
Example format_ticks_main :
  format_ticks (of_Z 10000000) (Some (of_Z 100000000)) (Some EmptyString)
  = "10MM".
Proof. vm_compute; reflexivity. Qed.

(** A zero tick is answered before the loop, whatever the maximum. *)
Example format_ticks_zero :
  format_ticks (of_Z 0) (Some (of_Z 5000000000)) (@None unit) = "0".
Proof. vm_compute; reflexivity. Qed.

(** ** [truncate_label] *)

Lemma length_app (s1 s2 : string) :
  String.length (s1 ++ s2) = (String.length s1 + String.length s2)%nat.
Proof. induction s1 as [| c s1 IH]; simpl; [reflexivity | now rewrite IH]. Qed.

(** The first [n] characters of a string that has at least [n]. *)
Lemma substring_prefix (n : nat) (s : string) :
  (n <= String.length s)%nat ->
  exists post, s = substring 0 n s ++ post /\
               String.length (substring 0 n s) = n.
Proof.
  revert s. induction n as [| n IH]; intros s Hn.
  - exists s. now destruct s.
  - destruct s as [| c s]; simpl in Hn; [lia |].
    destruct (IH s ltac:(lia)) as (post & Hs & Hl).
    exists post. simpl. split; [now rewrite <- Hs | now rewrite Hl].
Qed.

Lemma slice_to_prefix (s : string) (L : Z) :
  0 <= L <= len s -> slice_to s L = substring 0 (Z.to_nat L) s.
Proof.
  intros H. unfold slice_to.
  destruct (Z.ltb_spec L 0); [lia |]. now rewrite Z.min_l by lia.
Qed.

(** C6. For every label [s] and every length [L],
    [truncate_label(s, length=L)] is [s] when [len(s) <= L], and otherwise
    the first [L] characters of [s] followed by ["..."], a string of
    [L + 3] characters; the default length is 32. *)
Theorem truncate_label_spec :
  (forall (s : string) (L : nat),
      (String.length s <= L)%nat ->
      truncate_label s (Some (Z.of_nat L)) = s)
  /\ (forall (s : string) (L : nat),
         (L < String.length s)%nat ->
         exists pre post,
           s = pre ++ post /\ String.length pre = L /\
           truncate_label s (Some (Z.of_nat L)) = pre ++ "..." /\
           String.length (truncate_label s (Some (Z.of_nat L))) = (L + 3)%nat)
  /\ (forall s : string, truncate_label s None = truncate_label s (Some 32)).
Proof.
  split; [| split].
  - intros s L H. unfold truncate_label, len.
    destruct (Z.ltb_spec (Z.of_nat L) (Z.of_nat (String.length s)));
      [lia | reflexivity].
  - intros s L H. unfold truncate_label.
    destruct (Z.ltb_spec (Z.of_nat L) (len s)); [| unfold len in *; lia].
    rewrite slice_to_prefix by lia. rewrite Nat2Z.id.
    destruct (substring_prefix L s) as (post & Hs & Hl); [lia |].
    exists (substring 0 L s), post.
    split; [exact Hs |]. split; [exact Hl |]. split; [reflexivity |].
    rewrite length_app, Hl. reflexivity.
  - reflexivity.
Qed.

Lemma truncate_label_spec_witness :
  (5 < String.length "Lorem Ipsum")%nat /\
  exists pre post,
    "Lorem Ipsum" = pre ++ post /\ String.length pre = 5%nat /\
    truncate_label "Lorem Ipsum" (Some 5) = pre ++ "..." /\
    String.length (truncate_label "Lorem Ipsum" (Some 5)) = 8%nat.
Proof.
  assert (H : (5 < String.length "Lorem Ipsum")%nat) by (simpl; lia).
  split; [exact H |].
  exact (proj1 (proj2 truncate_label_spec) "Lorem Ipsum" 5%nat H).
Defined.

(** The call of the docstring (its comment shows a shorter text than the
    20 characters kept), and a negative length, which Python reads as a
    count from the end of the label. *)
Example truncate_label_call :
  truncate_label
    "Lorem Ipsum is simply dummy text of the printing and typesetting industry"
    (Some 20) = "Lorem Ipsum is simpl...".
Proof. reflexivity. Qed.

Example truncate_label_negative_length :
  truncate_label "abc" (Some (-1)) = "ab...".
Proof. reflexivity. Qed.

(** ** Dictionaries *)

Lemma lookup_none_iff {V : Type} (k : string) (d : list (string * V)) :
  lookup k d = None <-> ~ In k (keys d).
Proof.
  induction d as [| [k' v] d IH]; simpl; [tauto |].
  destruct (String.eqb_spec k k') as [-> | Hne].
  - split; [discriminate | intros H; exfalso; apply H; now left].
  - rewrite IH. split; [intros H [E | I]; [congruence | tauto] | tauto].
Qed.

Lemma contains_false_iff {V : Type} (k : string) (d : list (string * V)) :
  contains k d = false <-> ~ In k (keys d).
Proof.
  unfold contains. rewrite <- lookup_none_iff.
  destruct (lookup k d); split; congruence.
Qed.

Lemma contains_true_iff {V : Type} (k : string) (d : list (string * V)) :
  contains k d = true <-> In k (keys d).
Proof.
  destruct (contains k d) eqn:E.
  - split; [intros _ | reflexivity].
    destruct (in_dec string_dec k (keys d)) as [Hin | Hout]; [exact Hin |].
    apply contains_false_iff in Hout. congruence.
  - apply contains_false_iff in E. split; [discriminate | contradiction].
Qed.

Lemma lookup_in {V : Type} (k : string) (v : V) (d : list (string * V)) :
  NoDup (keys d) -> In (k, v) d -> lookup k d = Some v.
Proof.
  induction d as [| [k' v'] d IH]; simpl; [tauto |].
  intros Hnd [E | I].
  - injection E as -> ->. now rewrite String.eqb_refl.
  - inversion Hnd as [| ? ? Hk Hd]; subst.
    destruct (String.eqb_spec k k') as [-> | Hne]; [| now apply IH].
    exfalso. apply Hk. change (In (fst (k', v)) (map fst d)). now apply in_map.
Qed.

Lemma lookup_setitem_eq (d : dict) (k : string) (v : value) :
  lookup k (setitem d k v) = Some v.
Proof.
  induction d as [| [k' v'] d IH]; simpl.
  - now rewrite String.eqb_refl.
  - destruct (String.eqb_spec k k') as [-> | Hne]; simpl.
    + now rewrite String.eqb_refl.
    + destruct (String.eqb_spec k k'); [contradiction | exact IH].
Qed.

Lemma lookup_setitem_neq (d : dict) (k k' : string) (v : value) :
  k <> k' -> lookup k' (setitem d k v) = lookup k' d.
Proof.
  intros Hne. induction d as [| [k0 v0] d IH]; simpl.
  - destruct (String.eqb_spec k' k); [congruence | reflexivity].
  - destruct (String.eqb_spec k k0) as [-> | H0]; simpl.
    + destruct (String.eqb_spec k' k0); [congruence | reflexivity].
    + destruct (String.eqb_spec k' k0); [reflexivity | exact IH].
Qed.

Lemma keys_setitem (d : dict) (k : string) (v : value) (k' : string) :
  In k' (keys (setitem d k v)) <-> k' = k \/ In k' (keys d).
Proof.
  induction d as [| [k0 v0] d IH]; simpl.
  - intuition.
  - destruct (String.eqb_spec k k0) as [-> | H0]; simpl.
    + intuition.
    + rewrite IH. intuition.
Qed.

(** A key that the other mapping lacks keeps its value. *)
Lemma lookup_update_other (other d : dict) (k : string) :
  lookup k other = None -> lookup k (update d other) = lookup k d.
Proof.
  unfold update. revert d.
  induction other as [| [k1 v1] other IH]; intros d; simpl; [reflexivity |].
  destruct (String.eqb_spec k k1) as [-> | Hne]; [discriminate |].
  intros H. rewrite (IH _ H). apply lookup_setitem_neq. congruence.
Qed.

(** A key of the other mapping takes the value found there. *)
Lemma lookup_update_key (other d : dict) (k : string) (v : value) :
  NoDup (keys other) -> lookup k other = Some v ->
  lookup k (update d other) = Some v.
Proof.
  unfold update. revert d.
  induction other as [| [k1 v1] other IH]; intros d Hnd; simpl;
    [discriminate |].
  inversion Hnd as [| ? ? Hk Hd]; subst.
  destruct (String.eqb_spec k k1) as [-> | Hne].
  - intros [= ->].
    change (lookup k1 (update (setitem d k1 v) other) = Some v).
    rewrite lookup_update_other by now apply lookup_none_iff.
    apply lookup_setitem_eq.
  - intros H. now apply IH.
Qed.

(** ** [My_styles] *)


(** [read_styles] on a fresh instance, in terms of the preset's sections. *)
Lemma read_styles_fresh (estilo : value) (type_style : string) :
  My_styles.read_styles estilo
    [(My_styles.type_style_attr, VStr type_style)] =
  (sections <- preset_sections estilo type_style ;;
   for_each (fun self kv => setattr self (fst kv) (snd kv)) sections
     [(My_styles.type_style_attr, VStr type_style)]).
Proof.
  unfold My_styles.read_styles, preset_sections. simpl.
  destruct (getitem estilo (VStr type_style)); simpl; [| reflexivity].
  now destruct (items a).
Qed.



(** The constructor, once the preset has been read. *)
Lemma init_after_read (estilo : value) (type_style : string)
  (kwargs : list (string * dict)) :
  My_styles.__init__ estilo type_style kwargs =
  (self <- My_styles.read_styles estilo
             [(My_styles.type_style_attr, VStr type_style)] ;;
   call_method self "update_style_for_dict"
     (My_styles.update_style_for_dict self kwargs)).
Proof. reflexivity. Qed.

Lemma init_without_overrides (estilo : value) (type_style : string)
  (self : instance) :
  My_styles.__init__ estilo type_style [] = Ok self ->
  My_styles.read_styles estilo
    [(My_styles.type_style_attr, VStr type_style)] = Ok self /\
  contains "update_style_for_dict" self = false.
Proof.
  rewrite init_after_read.
  destruct (My_styles.read_styles _ _) as [s | e]; simpl; [| discriminate].
  unfold call_method.
  destruct (contains "update_style_for_dict" s) eqn:Hc; simpl; [discriminate |].
  intros [= ->]. split; [reflexivity | exact Hc].
Qed.

Lemma init_with_overrides (estilo : value) (type_style : string)
  (self : instance) (kwargs : list (string * dict)) :
  My_styles.__init__ estilo type_style [] = Ok self ->
  My_styles.__init__ estilo type_style kwargs =
  My_styles.update_style_for_dict self kwargs.
Proof.
  intros H. destruct (init_without_overrides _ _ _ H) as [Hr Hc].
  rewrite init_after_read, Hr. simpl. unfold call_method. now rewrite Hc.
Qed.

(** Without an intercepted name among them, reading the sections is a
    dictionary update of the fresh instance. *)
Lemma for_each_setattr_update (sections : dict) (self : instance) :
  (forall k, In k (keys sections) -> intercepted k = false) ->
  for_each (fun self kv => setattr self (fst kv) (snd kv)) sections self =
  Ok (update self sections).
Proof.
  unfold update. revert self.
  induction sections as [| [k v] sections IH]; intros self H; simpl;
    [reflexivity |].
  unfold setattr at 1. rewrite (H k) by now left. simpl.
  apply IH. intros k' Hk'. apply H. now right.
Qed.

(** The instance built from the preset alone holds each section under its
    name. *)
Lemma preset_profile (estilo : value) (type_style : string) (sections : dict) :
  preset_sections estilo type_style = Ok sections ->
  NoDup (keys sections) ->
  (forall k, In k (keys sections) -> intercepted k = false) ->
  ~ In "update_style_for_dict" (keys sections) ->
  exists preset_self,
    My_styles.__init__ estilo type_style [] = Ok preset_self /\
    (forall k v, lookup k sections = Some v ->
                 lookup k preset_self = Some v) /\
    (forall k, In k (keys preset_self) <->
               k = My_styles.type_style_attr \/ In k (keys sections)).
Proof.
  intros Hs Hnd Hint Hm.
  set (self0 := [(My_styles.type_style_attr, VStr type_style)]).
  assert (Hkeys : forall k, In k (keys (update self0 sections)) <->
                            k = My_styles.type_style_attr \/
                            In k (keys sections)).
  { intros k. rewrite <- !contains_true_iff. unfold contains.
    destruct (lookup k sections) as [v |] eqn:E.
    - rewrite (lookup_update_key _ _ _ _ Hnd E). intuition.
    - rewrite (lookup_update_other _ _ _ E). subst self0. simpl.
      destruct (String.eqb_spec k My_styles.type_style_attr);
        intuition congruence. }
  exists (update self0 sections). split; [| split].
  - rewrite init_after_read, read_styles_fresh, Hs. simpl.
    rewrite (for_each_setattr_update _ _ Hint). simpl.
    unfold call_method.
    rewrite (proj2 (contains_false_iff _ _)); [reflexivity |].
    intros Hin. apply Hkeys in Hin.
    destruct Hin as [E | Hin]; [discriminate E | contradiction].
  - intros k v. now apply lookup_update_key.
  - exact Hkeys.
Qed.

(** The instance after the overrides, attribute by attribute. *)
Lemma update_style_for_dict_lookup (kwargs : list (string * dict))
  (self : instance) :
  NoDup (keys kwargs) ->
  (forall k o v, In (k, o) kwargs -> lookup k self = Some v ->
                 exists d, v = VDict d) ->
  exists self',
    My_styles.update_style_for_dict self kwargs = Ok self' /\
    forall k,
      lookup k self' =
      match lookup k kwargs, lookup k self with
      | Some o, Some (VDict d) => Some (VDict (update d o))
      | _, before => before
      end.
Proof.
  unfold My_styles.update_style_for_dict. revert self.
  induction kwargs as [| [k1 o1] kwargs IH]; intros self Hnd Hmap; simpl.
  - exists self. split; [reflexivity |]. intros k. now destruct (lookup k self).
  - inversion Hnd as [| ? ? Hk1 Hnd']; subst.
    assert (Hrest : forall self1,
               (forall k, k <> k1 -> lookup k self1 = lookup k self) ->
               forall k o v, In (k, o) kwargs -> lookup k self1 = Some v ->
                             exists d, v = VDict d).
    { intros self1 Hsame k o v Hin Hl.
      assert (k <> k1).
      { intros ->. apply Hk1. change (In (fst (k1, o)) (map fst kwargs)).
        now apply in_map. }
      rewrite Hsame in Hl by assumption.
      apply (Hmap k o v); [now right | assumption]. }
    unfold contains, getattr.
    destruct (lookup k1 self) as [v1 |] eqn:E1; simpl.
    + destruct (Hmap k1 o1 v1 (or_introl eq_refl) E1) as [d1 ->]. simpl.
      destruct (IH (setitem self k1 (VDict (update d1 o1))) Hnd')
        as (self' & Hrun & Hl).
      { apply Hrest. intros k Hne. apply lookup_setitem_neq. congruence. }
      exists self'. split; [exact Hrun |]. intros k. rewrite Hl.
      destruct (String.eqb_spec k k1) as [-> | Hne].
      * rewrite (proj2 (lookup_none_iff k1 kwargs) Hk1).
        rewrite lookup_setitem_eq, E1. reflexivity.
      * rewrite lookup_setitem_neq by congruence. reflexivity.
    + destruct (IH self Hnd') as (self' & Hrun & Hl).
      { apply Hrest. reflexivity. }
      exists self'. split; [exact Hrun |]. intros k. rewrite Hl.
      destruct (String.eqb_spec k k1) as [-> | Hne]; [| reflexivity].
      rewrite (proj2 (lookup_none_iff k1 kwargs) Hk1), E1. reflexivity.
Qed.




(** C4. Let [preset_self] be the instance built from the preset alone.
    When every override that names an attribute names a mapping, the
    constructor succeeds, and a section [k] of value [d] overridden by
    [o] ends as [d.update(o)]: a key of [o] has the value [o] gives it,
    any other key has the value it has in [d].  Attributes that no
    override names stay as they are. *)
Theorem known_override_merges (estilo : value) (type_style : string)
  (kwargs : list (string * dict)) (preset_self : instance)
  (k : string) (d o : dict) :
  My_styles.__init__ estilo type_style [] = Ok preset_self ->
  NoDup (keys kwargs) ->
  NoDup (keys o) ->
  (forall k' o' v, In (k', o') kwargs -> lookup k' preset_self = Some v ->
                   exists d', v = VDict d') ->
  In (k, o) kwargs ->
  lookup k preset_self = Some (VDict d) ->
  exists self,
    My_styles.__init__ estilo type_style kwargs = Ok self /\
    lookup k self = Some (VDict (update d o)) /\
    (forall key v, lookup key o = Some v ->
                   lookup key (update d o) = Some v) /\
    (forall key, lookup key o = None ->
                 lookup key (update d o) = lookup key d) /\
    (forall k', lookup k' kwargs = None ->
                lookup k' self = lookup k' preset_self).
Proof.
  intros Hinit Hnd Hndo Hmap Hin Hk.
  destruct (update_style_for_dict_lookup kwargs preset_self Hnd Hmap)
    as (self & Hrun & Hl).
  exists self. repeat split.
  - now rewrite (init_with_overrides _ _ _ kwargs Hinit).
  - now rewrite Hl, (lookup_in _ _ _ Hnd Hin), Hk.
  - intros key v. now apply lookup_update_key.
  - intros key. apply lookup_update_other.
  - intros k' Hk'. now rewrite Hl, Hk'.
Qed.

(** The override of the specification: [grafico={"alpha": 0.5}] on the
    sample preset. *)
Lemma known_override_merges_witness :
  let d := [("color", VStr "skyblue"); ("width", VFloat (of_ratio 1 2))] in
  let o := [("alpha", VFloat (of_ratio 1 2))] in
  let kwargs := [("grafico", o)] in
  exists self,
    My_styles.__init__ sample_estilo "boxplot" kwargs = Ok self /\
    lookup "grafico" self = Some (VDict (update d o)) /\
    (forall key v, lookup key o = Some v ->
                   lookup key (update d o) = Some v) /\
    (forall key, lookup key o = None ->
                 lookup key (update d o) = lookup key d) /\
    (forall k', lookup k' kwargs = None ->
                lookup k' self =
                lookup k' [(My_styles.type_style_attr, VStr "boxplot");
                           ("estilo", VDict [("style", VStr "whitegrid");
                                             ("palette", VStr "pastel")]);
                           ("tamanho",
                            VDict [("figsize", VList [VInt 8; VInt 6])]);
                           ("titulo", VDict [("label", VStr "Boxplot");
                                             ("fontsize", VInt 14)]);
                           ("grafico", VDict d)]).
Proof.
  intros d o kwargs.
  refine (known_override_merges sample_estilo "boxplot" kwargs
            _ "grafico" d o eq_refl _ _ _ _ eq_refl).
  - repeat constructor; simpl; tauto.
  - repeat constructor; simpl; tauto.
  - intros k' o' v [[= <- <-] | []]. simpl. intros [= <-]. eexists; reflexivity.
  - now left.
Defined.

Example override_alpha :
  exists self,
    My_styles.__init__ sample_estilo "boxplot"
      [("grafico", [("alpha", VFloat (of_ratio 1 2))])] = Ok self /\
    lookup "grafico" self =
      Some (VDict [("color", VStr "skyblue");
                   ("width", VFloat (of_ratio 1 2));
                   ("alpha", VFloat (of_ratio 1 2))]).
Proof. eexists. split; reflexivity. Qed.

(** ** [My_boxplot] *)

(** Summing the truth values counts the values that satisfy the test. *)
Lemma count_outside_filter (column : list float) (lower upper : float) :
  My_boxplot.count_outside column lower upper =
  Z.of_nat (List.length
              (filter (fun v => ltb v lower || ltb upper v) column)).
Proof.
  unfold My_boxplot.count_outside.
  assert (G : forall acc,
             fold_left
               (fun total v =>
                  total + (if ltb v lower || ltb upper v then 1 else 0))
               column acc =
             acc + Z.of_nat (List.length
                               (filter (fun v => ltb v lower || ltb upper v)
                                       column))).
  { induction column as [| v column IH]; intros acc; simpl; [lia |].
    rewrite IH. destruct (ltb v lower || ltb upper v); cbn [List.length]; lia. }
  rewrite G. lia.
Qed.

Lemma y_column_table (self : instance) (grafico : dict)
  (columns : list (string * list float)) (y : string) (column : list float) :
  lookup "grafico" self = Some (VDict grafico) ->
  lookup "data" grafico = Some (VFrame (Table columns)) ->
  lookup "y" grafico = Some (VStr y) ->
  lookup y columns = Some column ->
  My_boxplot.y_column self = Ok (VSeries column).
Proof.
  intros Hg Hd Hy Hc. unfold My_boxplot.y_column, getattr.
  rewrite Hg. simpl. rewrite Hd. simpl. rewrite Hy. simpl. now rewrite Hc.
Qed.

(** C5. When the constructor of the base class leaves a title with a text
    label and a dataset with the column named by [y], the outlier count is
    the number of values of that column strictly below
    [Q1 - 1.5 * IQR] or strictly above [Q3 + 1.5 * IQR], for the quantiles
    [Q1], [Q3] at 0.25 and 0.75 and [IQR = Q3 - Q1], and the constructor of
    [My_boxplot] appends a line feed and "Número de Outliers:" with that
    count to the label, changing nothing else.  On [[1,2,3,4,100]] the
    quantiles are 2 and 4, the bounds -1 and 7, the only outlier is 100
    and the label ends with "Número de Outliers:1". *)
Theorem boxplot_title_counts_outliers :
  (forall (P : Pandas) (estilo : value) (kwargs : list (string * dict))
          (self : instance) (titulo grafico : dict) (label y : string)
          (columns : list (string * list float)) (column : list float),
      super_init estilo "boxplot" kwargs = Ok self ->
      lookup "titulo" self = Some (VDict titulo) ->
      lookup "label" titulo = Some (VStr label) ->
      lookup "grafico" self = Some (VDict grafico) ->
      lookup "data" grafico = Some (VFrame (Table columns)) ->
      lookup "y" grafico = Some (VStr y) ->
      lookup y columns = Some column ->
      lookup "quantidade_outliers" self = None ->
      let Q1 := Series_quantile column (of_ratio 1 4) in
      let Q3 := Series_quantile column (of_ratio 3 4) in
      let count := Z.of_nat (List.length (iqr_outliers Q1 Q3 column)) in
      My_boxplot.quantidade_outliers self = Ok count /\
      My_boxplot.__init__ estilo kwargs =
      Ok (setitem self "titulo"
            (VDict (setitem titulo "label"
                      (VStr (label ++
                             String "010"
                               ("N" ++ String "250"
                                  ("mero de Outliers:" ++ decimal count))))))))
  /\ (let ys := map of_Z [1; 2; 3; 4; 100] in
      linear_quantile ys (of_ratio 1 4) = of_Z 2 /\
      linear_quantile ys (of_ratio 3 4) = of_Z 4 /\
      sub (of_Z 4) (of_Z 2) = of_Z 2 /\
      iqr_lower (of_Z 2) (of_Z 4) = of_Z (-1) /\
      iqr_upper (of_Z 2) (of_Z 4) = of_Z 7 /\
      iqr_outliers (of_Z 2) (of_Z 4) ys = [of_Z 100])
  /\ (exists self titulo,
         @My_boxplot.__init__ pandas_linear sample_estilo
           [("grafico", [("data", VFrame sample_frame); ("y", VStr "y")])]
         = Ok self /\
         lookup "titulo" self = Some (VDict titulo) /\
         lookup "label" titulo =
         Some (VStr ("Boxplot" ++
                     String "010"
                       ("N" ++ String "250" "mero de Outliers:1")))).
Proof.
  split; [| split].
  - intros P estilo kwargs self titulo grafico label y columns column
           Hinit Ht Hl Hg Hd Hy Hc Hm Q1 Q3 count.
    assert (Hq : My_boxplot.quantidade_outliers self = Ok count).
    { unfold My_boxplot.quantidade_outliers.
      rewrite (y_column_table _ _ _ _ _ Hg Hd Hy Hc). simpl.
      now rewrite count_outside_filter. }
    split; [exact Hq |].
    unfold My_boxplot.__init__. rewrite Hinit. simpl.
    unfold getattr. rewrite Ht. simpl. rewrite Hl. simpl.
    unfold call_method, contains. rewrite Hm, Hq. reflexivity.
  - vm_compute. repeat split; reflexivity.
  - eexists. eexists. split; [vm_compute; reflexivity |].
    split; reflexivity.
Qed.

Lemma boxplot_title_counts_outliers_witness :
  exists self,
    @My_boxplot.quantidade_outliers pandas_linear self = Ok 1 /\
    @My_boxplot.__init__ pandas_linear sample_estilo
      [("grafico", [("data", VFrame sample_frame); ("y", VStr "y")])] =
    Ok (setitem self "titulo"
          (VDict (setitem [("label", VStr "Boxplot"); ("fontsize", VInt 14)]
                    "label"
                    (VStr ("Boxplot" ++
                           String "010"
                             ("N" ++ String "250"
                                ("mero de Outliers:" ++ decimal 1))))))).
Proof.
  eexists.
  exact (proj1 boxplot_title_counts_outliers pandas_linear sample_estilo
           [("grafico", [("data", VFrame sample_frame); ("y", VStr "y")])]
           _ [("label", VStr "Boxplot"); ("fontsize", VInt 14)] _
           "Boxplot" "y" _ _
           eq_refl eq_refl eq_refl eq_refl eq_refl eq_refl eq_refl eq_refl).
Defined.

(** ** [pre_make] *)

Lemma mbind_ok {A B : Type} (m : M A) (k : A -> M B) (t : list call) (b : B) :
  mbind m k = (t, Ok b) ->
  exists t1 a t2, m = (t1, Ok a) /\ k a = (t2, Ok b) /\ t = (t1 ++ t2)%list.
Proof.
  destruct m as [t1 [a | e]]; simpl; [| discriminate].
  destruct (k a) as [t2 r] eqn:E. intros [= <- ->].
  now exists t1, a, t2.
Qed.

(** What every successful continuation ends with, the whole run ends
    with. *)
Lemma mbind_suffix {A B : Type} (m : M A) (k : A -> M B) (t : list call)
  (b : B) (suffix : list call) :
  mbind m k = (t, Ok b) ->
  (forall a t2, k a = (t2, Ok b) -> exists t0, t2 = (t0 ++ suffix)%list) ->
  exists t0, t = (t0 ++ suffix)%list.
Proof.
  intros H Hk. apply mbind_ok in H. destruct H as (t1 & a & t2 & _ & H2 & ->).
  destruct (Hk a t2 H2) as [t0 ->]. exists (t1 ++ t0)%list.
  now rewrite app_assoc.
Qed.

(** No value of the model has an attribute called [palette]. *)
Lemma hasattr_palette (v : value) (has : bool) :
  hasattr v "palette" = Ok has -> has = false.
Proof. destruct v; simpl; try discriminate; now intros [= <-]. Qed.

Lemma palette_argument_ok (self : instance) (palette : value) :
  palette_argument self = Ok palette -> palette = VDict [].
Proof.
  unfold palette_argument.
  destruct (getattr self "estilo") as [estilo | e]; simpl; [| discriminate].
  destruct (hasattr estilo "palette") as [has | e] eqn:E; simpl;
    [| discriminate].
  rewrite (hasattr_palette _ _ E). now intros [= <-].
Qed.


Lemma mbind_trace {A B : Type} (m : M A) (k : A -> M B) (c : call) :
  In c (fst (mbind m k)) ->
  In c (fst m) \/ exists a, snd m = Ok a /\ In c (fst (k a)).
Proof.
  destruct m as [t [a | e]]; simpl; [| now left].
  destruct (k a) as [t' r] eqn:E. simpl. intros H.
  apply in_app_or in H. destruct H as [H | H]; [now left |].
  right. exists a. rewrite E. auto.
Qed.

(** The calls of a decorated method are those of [pre_make] itself and
    those of the method it wraps. *)
Lemma pre_make_trace (func : instance -> M unit) (self : instance) (c : call) :
  In c (fst (pre_make func self)) ->
  In c (fst (func self)) \/
  c = sns_reset_defaults \/ (exists kw, c = sns_set kw) \/
  (exists kw, c = plt_figure kw) \/ (exists kw, c = plt_title kw) \/
  (exists p, c = sns_set_palette p) \/ c = plt_show.
Proof.
  unfold pre_make. intros H.
  repeat match type of H with
         | In _ (fst (mbind _ _)) =>
             apply mbind_trace in H;
             destruct H as [H | (? & _ & H)]
         | In _ (fst (lift _)) => destruct H
         | In _ (fst (emit _)) => destruct H as [<- | []]
         end;
    eauto 10.
Qed.

(** ** [decorator_filter_kw] and [My_headmap] *)

Lemma setitem_fresh (d : dict) (k : string) (v : value) :
  ~ In k (keys d) -> setitem d k v = (d ++ [(k, v)])%list.
Proof.
  induction d as [| [k' v'] d IH]; simpl; [reflexivity |].
  intros H. destruct (String.eqb_spec k k') as [-> | Hne]; [tauto |].
  rewrite IH; tauto.
Qed.

(** Copying the entries that pass a test into a fresh dictionary keeps
    them as they are, in their order. *)
Lemma fold_setitem_filter (p : string -> bool) (entries acc : dict) :
  NoDup (keys acc ++ keys entries) ->
  fold_left
    (fun filter_kwargs kv =>
       if p (fst kv) then setitem filter_kwargs (fst kv) (snd kv)
       else filter_kwargs)
    entries acc =
  (acc ++ filter (fun kv => p (fst kv)) entries)%list.
Proof.
  revert acc. induction entries as [| [k v] entries IH]; intros acc Hnd; simpl.
  - now rewrite app_nil_r.
  - simpl in Hnd. destruct (p k).
    + rewrite setitem_fresh.
      * rewrite IH.
        -- now rewrite <- app_assoc.
        -- unfold keys in *. rewrite map_app, <- app_assoc. exact Hnd.
      * intros Hin. apply NoDup_remove_2 in Hnd. apply Hnd.
        apply in_or_app. now left.
    + apply IH. now apply NoDup_remove_1 in Hnd.
Qed.

Lemma decorator_filter_kw_spec (my_list : list string) (self : instance)
  (grafico : dict) :
  lookup "grafico" self = Some (VDict grafico) ->
  NoDup (keys grafico) ->
  decorator_filter_kw my_list self =
  Ok (filter (fun kv => negb (in_list (fst kv) my_list)) grafico).
Proof.
  intros Hg Hnd. unfold decorator_filter_kw, getattr. rewrite Hg. simpl.
  now rewrite (fold_setitem_filter (fun k => negb (in_list k my_list))).
Qed.

Lemma keywords_ok (explicit extra : dict) :
  (forall k, In k (keys extra) -> lookup k explicit = None) ->
  keywords explicit extra = Ok (explicit ++ extra)%list.
Proof.
  intros H. unfold keywords.
  destruct (existsb (fun k => contains k explicit) (keys extra)) eqn:E;
    [| reflexivity].
  apply existsb_exists in E. destruct E as (k & Hk & Hc).
  unfold contains in Hc. now rewrite (H k Hk) in Hc.
Qed.

Lemma keywords_inv (explicit extra kw : dict) :
  keywords explicit extra = Ok kw -> kw = (explicit ++ extra)%list.
Proof.
  unfold keywords. destruct (existsb _ _); [discriminate |]. now intros [= <-].
Qed.

Lemma lookup_filter_key (p : string -> bool) (d : dict) (k : string) :
  lookup k (filter (fun kv => p (fst kv)) d) =
  if p k then lookup k d else None.
Proof.
  induction d as [| [k' v] d IH]; simpl; [now destruct (p k) |].
  destruct (p k') eqn:E; simpl;
    destruct (String.eqb_spec k k') as [-> | Hne]; try exact IH.
  - now rewrite E.
  - rewrite IH, E. reflexivity.
Qed.

(** What a heatmap call of the drawing step tells about the instance. *)
Lemma heatmap_body_call (self : instance) (kw : dict) :
  In (sns_heatmap kw) (fst (My_headmap.make_body self)) ->
  exists grafico f x y,
    lookup "grafico" self = Some (VDict grafico) /\
    lookup "data" grafico = Some (VFrame f) /\
    lookup "x" grafico = Some x /\
    lookup "y" grafico = Some y /\
    (NoDup (keys grafico) ->
     kw = ([("data", VFrame (Round (Corr f) 2)); ("xticklabels", x);
            ("yticklabels", y)] ++
           filter (fun kv => negb (in_list (fst kv) ["data"; "x"; "y"]))
                  grafico)%list).
Proof.
  intros Hin. unfold My_headmap.make_body, getattr in Hin.
  destruct (lookup "grafico" self) as [g |] eqn:Hg; [| destruct Hin].
  cbn [lift mbind] in Hin.
  destruct g as [| | | | | | grafico | [columns | |] |];
    cbn [getitem as_index mbind app fst] in Hin; try (destruct Hin).
  - destruct (lookup "data" grafico) as [data |] eqn:Hd; [| destruct Hin].
    cbn [lift mbind app] in Hin.
    destruct data as [| | | | | | | f |];
      cbn [My_headmap.correlation_matrix mbind app fst] in Hin;
      try (destruct Hin).
    destruct (lookup "x" grafico) as [x |] eqn:Hx; [| destruct Hin].
    cbn [mbind app] in Hin.
    destruct (lookup "y" grafico) as [y |] eqn:Hy; [| destruct Hin].
    cbn [mbind app] in Hin.
    exists grafico, f, x, y. repeat (split; [reflexivity || assumption |]).
    intros Hnd.
    unfold call_method, My_headmap.filter_kwargs in Hin.
    rewrite (decorator_filter_kw_spec _ _ _ Hg Hnd) in Hin.
    destruct (contains "filter_kwargs" self); [destruct Hin |].
    cbn [mbind app] in Hin.
    destruct (keywords _ _) as [kw' | e] eqn:Hkw; [| destruct Hin].
    apply keywords_inv in Hkw. subst kw'.
    cbn [mbind emit app fst] in Hin. now destruct Hin as [[= <-] | []].
  - destruct (lookup "data" columns); cbn [mbind app fst] in Hin;
      destruct Hin.
Qed.

(** The drawing step of the heatmap when the entries are in place. *)
Lemma heatmap_body_run (self : instance) (grafico : dict) (f : frame)
  (x y : value) :
  lookup "grafico" self = Some (VDict grafico) ->
  NoDup (keys grafico) ->
  lookup "data" grafico = Some (VFrame f) ->
  lookup "x" grafico = Some x ->
  lookup "y" grafico = Some y ->
  lookup "xticklabels" grafico = None ->
  lookup "yticklabels" grafico = None ->
  lookup "filter_kwargs" self = None ->
  My_headmap.make_body self =
  ([sns_heatmap
      ([("data", VFrame (Round (Corr f) 2)); ("xticklabels", x);
        ("yticklabels", y)] ++
       filter (fun kv => negb (in_list (fst kv) ["data"; "x"; "y"]))
              grafico)%list],
   Ok tt).
Proof.
  intros Hg Hnd Hd Hx Hy Hxt Hyt Hm.
  unfold My_headmap.make_body, getattr. rewrite Hg.
  cbn [lift mbind getitem]. rewrite Hd, Hx, Hy.
  cbn [My_headmap.correlation_matrix lift mbind app].
  unfold call_method, contains, My_headmap.filter_kwargs. rewrite Hm.
  rewrite (decorator_filter_kw_spec _ _ _ Hg Hnd).
  cbn [mbind app]. rewrite keywords_ok; [reflexivity |].
  intros k Hk. unfold keys in Hk. apply in_map_iff in Hk.
  destruct Hk as ([k0 v] & Heq & Hkv). simpl in Heq. subst k0.
  apply filter_In in Hkv. destruct Hkv as [Hin Hp]. simpl in Hp.
  assert (Hkey : In k (keys grafico))
    by (change (In (fst (k, v)) (map fst grafico)); now apply in_map).
  simpl.
  destruct (String.eqb_spec k "data") as [-> | _]; [discriminate Hp |].
  destruct (String.eqb_spec k "xticklabels") as [-> | _];
    [now apply lookup_none_iff in Hxt |].
  destruct (String.eqb_spec k "yticklabels") as [-> | _];
    [now apply lookup_none_iff in Hyt |].
  reflexivity.
Qed.

(** C8, as worded, fails on a [grafico] that carries a tick-label option
    of its own.  The entry [xticklabels] is a key other than [data], [x]
    and [y], so it is among the remaining options; the call then names
    the keyword [xticklabels] twice, which is a [TypeError], and [make]
    stops after the title without a draw call. *)
Theorem heatmap_label_option_stops_draw_call :
  exists self,
    My_headmap.__init__ sample_estilo
      [("grafico", [("data", VFrame sample_frame); ("x", VStr "auto");
                    ("y", VStr "auto"); ("xticklabels", VBool false)])]
    = Ok self /\
    getattr self "grafico" =
    Ok (VDict [("annot", VBool true); ("cmap", VStr "coolwarm");
               ("data", VFrame sample_frame); ("x", VStr "auto");
               ("y", VStr "auto"); ("xticklabels", VBool false)]) /\
    My_headmap.filter_kwargs self =
    Ok [("annot", VBool true); ("cmap", VStr "coolwarm");
        ("xticklabels", VBool false)] /\
    My_headmap.make self =
    ([sns_reset_defaults; sns_set [("style", VStr "white")];
      plt_figure [("figsize", VList [VInt 8; VInt 6])];
      plt_title [("label", VStr "Heatmap")]],
     Raise TypeError).
Proof.
  eexists. split; [reflexivity |]. split; [reflexivity |].
  split; reflexivity.
Qed.

(** C8, amended.  For a chart whose sections [estilo], [tamanho],
    [titulo] and [grafico] are mappings, with a dataset under [data] and
    the entries [x] and [y] in [grafico], no entry [xticklabels] or
    [yticklabels] there and no attribute named [filter_kwargs], [make]
    issues one heatmap call, after the title and before [set_palette]:
    its [data] is the correlation matrix of the dataset rounded to 2
    decimals, [xticklabels] and [yticklabels] are the entries [x] and [y]
    of [grafico], and then come the entries of [grafico] other than
    [data], [x] and [y], unchanged and in their order.  Every heatmap
    call that [make] issues, on any chart, has these arguments. *)
Theorem heatmap_draw_call :
  (forall (self : instance) (kw : dict),
      In (sns_heatmap kw) (fst (My_headmap.make self)) ->
      exists grafico f x y,
        lookup "grafico" self = Some (VDict grafico) /\
        lookup "data" grafico = Some (VFrame f) /\
        lookup "x" grafico = Some x /\
        lookup "y" grafico = Some y /\
        (NoDup (keys grafico) ->
         kw = ([("data", VFrame (Round (Corr f) 2)); ("xticklabels", x);
                ("yticklabels", y)] ++
               filter (fun kv => negb (in_list (fst kv) ["data"; "x"; "y"]))
                      grafico)%list))
  /\ (forall (self : instance) (estilo tamanho titulo grafico : dict)
             (f : frame) (x y : value),
         lookup "estilo" self = Some (VDict estilo) ->
         lookup "tamanho" self = Some (VDict tamanho) ->
         lookup "titulo" self = Some (VDict titulo) ->
         lookup "grafico" self = Some (VDict grafico) ->
         NoDup (keys grafico) ->
         lookup "data" grafico = Some (VFrame f) ->
         lookup "x" grafico = Some x ->
         lookup "y" grafico = Some y ->
         lookup "xticklabels" grafico = None ->
         lookup "yticklabels" grafico = None ->
         lookup "filter_kwargs" self = None ->
         My_headmap.make self =
         ([sns_reset_defaults; sns_set estilo; plt_figure tamanho;
           plt_title titulo;
           sns_heatmap
             ([("data", VFrame (Round (Corr f) 2)); ("xticklabels", x);
               ("yticklabels", y)] ++
              filter (fun kv => negb (in_list (fst kv) ["data"; "x"; "y"]))
                     grafico)%list;
           sns_set_palette (VDict []); plt_show],
          Ok tt))
  /\ (forall (grafico : dict) (k : string),
         lookup k (filter (fun kv => negb (in_list (fst kv) ["data"; "x"; "y"]))
                          grafico) =
         if in_list k ["data"; "x"; "y"] then None else lookup k grafico).
Proof.
  split; [| split].
  - intros self kw Hin.
    apply pre_make_trace in Hin.
    destruct Hin as [Hin | [H | [[? H] | [[? H] | [[? H] | [[? H] | H]]]]]];
      try discriminate H.
    now apply heatmap_body_call.
  - intros self estilo tamanho titulo grafico f x y
      He Hta Hti Hg Hnd Hd Hx Hy Hxt Hyt Hm.
    unfold My_headmap.make, pre_make.
    rewrite (heatmap_body_run _ _ _ _ _ Hg Hnd Hd Hx Hy Hxt Hyt Hm).
    unfold style_arguments, palette_argument, contains, getattr.
    rewrite He, Hta, Hti. now destruct estilo.
  - intros grafico k.
    rewrite (lookup_filter_key (fun k => negb (in_list k ["data"; "x"; "y"]))).
    now destruct (in_list k ["data"; "x"; "y"]).
Qed.

Lemma heatmap_draw_call_witness :
  exists self,
    My_headmap.__init__ sample_estilo
      [("grafico", [("data", VFrame sample_frame); ("x", VStr "auto");
                    ("y", VStr "auto")])] = Ok self /\
    My_headmap.make self =
    ([sns_reset_defaults; sns_set [("style", VStr "white")];
      plt_figure [("figsize", VList [VInt 8; VInt 6])];
      plt_title [("label", VStr "Heatmap")];
      sns_heatmap
        [("data", VFrame (Round (Corr sample_frame) 2));
         ("xticklabels", VStr "auto"); ("yticklabels", VStr "auto");
         ("annot", VBool true); ("cmap", VStr "coolwarm")];
      sns_set_palette (VDict []); plt_show],
     Ok tt).
Proof.
  eexists. split; [reflexivity |].
  apply (proj1 (proj2 heatmap_draw_call)) with
    (grafico := [("annot", VBool true); ("cmap", VStr "coolwarm");
                 ("data", VFrame sample_frame); ("x", VStr "auto");
                 ("y", VStr "auto")]);
    try reflexivity.
  repeat constructor; simpl; intuition discriminate.
Defined.


(** C9, what the code does.  The palette handed to [set_palette] after
    the drawing step is the empty dictionary, whatever the [estilo]
    section holds: the test [hasattr(self.estilo, 'palette')] asks for an
    attribute of the dictionary, not for a key.  So it is for a preset
    whose [estilo] section has the entry [palette: "pastel"]. *)
Theorem palette_entry_not_reapplied :
  (forall (func : instance -> M unit) (self : instance) (t : list call),
      pre_make func self = (t, Ok tt) ->
      exists t0, t = (t0 ++ [sns_set_palette (VDict []); plt_show])%list)
  /\ (exists self t0,
         @My_boxplot.__init__ pandas_linear sample_estilo
           [("grafico", [("data", VFrame sample_frame); ("y", VStr "y")])]
         = Ok self /\
         getattr self "estilo" =
         Ok (VDict [("style", VStr "whitegrid"); ("palette", VStr "pastel")]) /\
         My_boxplot.make self =
         ((t0 ++ [sns_set_palette (VDict []); plt_show])%list, Ok tt) /\
         ~ In (sns_set_palette (VStr "pastel")) t0).
Proof.
  split.
  - intros func self t H. unfold pre_make in H.
    do 10 (apply (mbind_suffix _ _ _ _ _ H); clear t H; intros ? t H).
    apply mbind_ok in H. destruct H as (t1 & palette & t2 & H1 & H2 & ->).
    unfold lift in H1. injection H1 as <- H1.
    apply palette_argument_ok in H1. subst palette.
    exists []. now injection H2 as <-.
  - eexists. exists
      [sns_reset_defaults;
       sns_set [("style", VStr "whitegrid"); ("palette", VStr "pastel")];
       plt_figure [("figsize", VList [VInt 8; VInt 6])];
       plt_title
         [("label", VStr ("Boxplot" ++
                          String "010"
                            ("N" ++ String "250" "mero de Outliers:1")));
          ("fontsize", VInt 14)];
       sns_boxplot
         [("color", VStr "skyblue"); ("width", VFloat (of_ratio 1 2));
          ("data", VFrame sample_frame); ("y", VStr "y")]].
    split; [vm_compute; reflexivity |].
    split; [reflexivity |]. split; [vm_compute; reflexivity |].
    simpl. intuition discriminate.
Qed.

Lemma palette_entry_not_reapplied_witness :
  exists t0,
    [sns_reset_defaults; sns_set [("palette", VStr "pastel")];
     plt_figure []; plt_title [("label", VStr "Heatmap")];
     sns_set_palette (VDict []); plt_show] =
    (t0 ++ [sns_set_palette (VDict []); plt_show])%list.
Proof.
  exact (proj1 palette_entry_not_reapplied
           (fun _ => lift (Ok tt))
           [("estilo", VDict [("palette", VStr "pastel")]);
            ("tamanho", VDict []);
            ("titulo", VDict [("label", VStr "Heatmap")])]
           _ eq_refl).
Defined.

(** Without an [estilo] section the first use is guarded and the second
    is not: the figure is drawn, then the attribute is missed. *)
Example pre_make_without_estilo :
  pre_make (fun _ => lift (Ok tt))
    [("tamanho", VDict []); ("titulo", VDict [("label", VStr "Heatmap")])] =
  ([sns_reset_defaults; sns_set []; plt_figure [];
    plt_title [("label", VStr "Heatmap")]],
   Raise AttributeError).
Proof. reflexivity. Qed.

(** * Further properties *)

(** ** [format_ticks]: degenerate maxima, negative ticks, small integers *)

Lemma ratio_test_degenerate (max : float) (s : scale) :
  degenerate max -> ratio_test max (scale_dict s) = false.
Proof.
  destruct max as [sm | sm | | sm m e]; simpl; intros H.
  - destruct (scale_dict_finite s) as (mu & eu & ->). now destruct sm.
  - destruct (scale_dict_finite s) as (mu & eu & ->). now destruct sm.
  - destruct (scale_dict_finite s) as (mu & eu & ->). reflexivity.
  - apply ratio_test_signed. exact H.
Qed.

(** X1. When the maximum in force is not a number, infinite, zero or
    negative, no scale is tried with success and the tick is printed
    unscaled, whatever its value. *)
Theorem format_ticks_degenerate_max (A : Type) (value : float)
  (max : option float) (p : option A) :
  degenerate (effective_max value max) ->
  format_ticks value max p = format_0f value.
Proof.
  intros H. unfold format_ticks. fold (effective_max value max).
  destruct (eqb value (of_Z 0)); [reflexivity |].
  rewrite format_loop_none; [reflexivity |].
  intros s. now apply ratio_test_degenerate.
Qed.

Lemma format_ticks_degenerate_max_witness :
  degenerate (effective_max (of_Z 2500000) (Some (of_Z (-7)))) /\
  format_ticks (of_Z 2500000) (Some (of_Z (-7))) (@None unit) = "2500000".
Proof.
  assert (H : degenerate (effective_max (of_Z 2500000) (Some (of_Z (-7)))))
    by (vm_compute; reflexivity).
  split; [exact H |].
  exact (format_ticks_degenerate_max unit _ _ None H).
Defined.

(** *** Rounding keeps the sign of a quotient *)

Lemma shr_1_nonneg (mrs : shr_record) :
  0 <= shr_m mrs -> 0 <= shr_m (shr_1 mrs).
Proof.
  destruct mrs as [m r s]. destruct m as [| [p | p |] | [p | p |]];
    simpl; lia.
Qed.

Lemma iter_shr_1_nonneg (p : positive) (mrs : shr_record) :
  0 <= shr_m mrs -> 0 <= shr_m (iter_pos shr_1 p mrs).
Proof.
  revert mrs. induction p as [p IH | p IH |]; intros mrs H; simpl.
  - apply IH, IH, shr_1_nonneg, H.
  - apply IH, IH, H.
  - apply shr_1_nonneg, H.
Qed.

Lemma shr_fexp_nonneg (m e : Z) (l : location) :
  0 <= m -> 0 <= shr_m (fst (shr_fexp prec emax m e l)).
Proof.
  intros H. unfold shr_fexp, shr.
  assert (H0 : 0 <= shr_m (shr_record_of_loc m l))
    by (destruct l as [| []]; exact H).
  destruct (fexp prec emax (Zdigits2 m + e) - e); simpl; try exact H0.
  now apply iter_shr_1_nonneg.
Qed.

(** Rounding a magnitude under a negative sign gives a signed zero, a
    negative number or minus infinity. *)
Lemma binary_round_aux_negative (mx ex : Z) (lx : location) :
  0 <= mx ->
  match binary_round_aux prec emax true mx ex lx with
  | S754_zero s | S754_infinity s | S754_finite s _ _ => s = true
  | S754_nan => False
  end.
Proof.
  intros H. unfold binary_round_aux.
  pose proof (shr_fexp_nonneg mx ex lx H) as H1.
  destruct (shr_fexp prec emax mx ex lx) as [mrs' e']. simpl in H1.
  assert (H2 : 0 <= round_nearest_even (shr_m mrs') (loc_of_shr_record mrs')).
  { unfold round_nearest_even.
    destruct (loc_of_shr_record mrs') as [| []]; try lia.
    destruct (Z.even (shr_m mrs')); lia. }
  pose proof (shr_fexp_nonneg _ e' loc_Exact H2) as H3.
  destruct (shr_fexp prec emax _ e' loc_Exact) as [mrs'' e'']. simpl in H3.
  destruct (shr_m mrs'') as [| q | q]; [reflexivity | | lia].
  now destruct (e'' <=? emax - prec).
Qed.

Lemma div_negative_below_one (x : float) (s : scale) :
  negative x -> ltb (div x (scale_dict s)) (of_Z 1) = true.
Proof.
  destruct (scale_dict_finite s) as (mu & eu & ->).
  destruct x as [sx | [] | | [] mx ex]; simpl; try tauto; intros _.
  unfold div, SFdiv.
  destruct (SFdiv_core_binary prec emax (Zpos mx) ex (Zpos mu) eu)
    as [[mz ez] lz] eqn:E.
  assert (Hq : 0 <= mz).
  { unfold SFdiv_core_binary in E.
    set (sh := ex - eu - _) in E.
    set (m' := match sh with Z.pos _ => _ | Z0 => _ | Z.neg _ => _ end) in E.
    assert (Hm : 0 <= m').
    { subst m'. destruct sh; try lia. apply Z.shiftl_nonneg. lia. }
    pose proof (Z_div_mod m' (Zpos mu) eq_refl) as Hd.
    destruct (Z.div_eucl m' (Zpos mu)) as [q r].
    injection E as <- _ _. nia. }
  pose proof (binary_round_aux_negative mz ez lz Hq) as Hs.
  cbn [xorb].
  destruct (binary_round_aux prec emax true mz ez lz) as [sq | sq | | sq mq eq];
    try contradiction; subst; reflexivity.
Qed.

Lemma negative_nonzero (x : float) : negative x -> eqb x (of_Z 0) = false.
Proof. destruct x as [sx | [] | | [] m e]; simpl; tauto || reflexivity. Qed.

(** X2. A tick below zero is never rescaled: when a scale is selected by
    the maximum, the tick is printed as it is, with no suffix for mil and
    MM, with "MM" for B and with "B" for T. *)
Theorem format_ticks_negative_value (A : Type) (value max : float)
  (p : option A) (s : scale) :
  negative value ->
  selects max s ->
  format_ticks value (Some max) p = format_0f value ++ fallback_suffix s.
Proof.
  intros Hneg Hsel.
  rewrite (format_ticks_nonzero _ _ _ (negative_nonzero _ Hneg)).
  cbn [effective_max]. rewrite (format_loop_selects _ _ _ Hsel).
  unfold format_at. rewrite (div_negative_below_one _ s Hneg).
  now destruct s.
Qed.

Lemma format_ticks_negative_value_witness :
  negative (of_Z (-5000000)) /\
  selects (of_Z 5000000000) B /\
  format_ticks (of_Z (-5000000)) (Some (of_Z 5000000000)) (@None unit)
  = "-5000000MM".
Proof.
  assert (Hneg : negative (of_Z (-5000000))) by (vm_compute; exact I).
  assert (Hsel : selects (of_Z 5000000000) B) by evaluate_selects.
  split; [exact Hneg |]. split; [exact Hsel |].
  exact (format_ticks_negative_value unit _ _ None B Hneg Hsel).
Defined.

(** X3. With the maximum left out, every integer between -1000 and 1000
    is printed as itself, without a suffix. *)
Theorem format_ticks_small_integers (A : Type) (n : Z) (p : option A) :
  -1000 < n < 1000 ->
  format_ticks (of_Z n) None p = decimal n.
Proof.
  intros H.
  assert (E : forallb
                (fun k =>
                   String.eqb
                     (@format_ticks unit (of_Z (Z.of_nat k - 999)) None None)
                     (decimal (Z.of_nat k - 999)))
                (seq 0 1999) = true) by (vm_compute; reflexivity).
  rewrite forallb_forall in E.
  specialize (E (Z.to_nat (n + 999))).
  rewrite Z2Nat.id in E by lia.
  replace (n + 999 - 999) with n in E by lia.
  apply String.eqb_eq. apply E. apply in_seq. lia.
Qed.

Lemma format_ticks_small_integers_witness :
  -1000 < 999 < 1000 /\ format_ticks (of_Z 999) None (@None unit) = "999".
Proof.
  assert (H : -1000 < 999 < 1000) by lia.
  split; [exact H |].
  exact (format_ticks_small_integers unit 999 None H).
Defined.

Lemma append_empty_r (s : string) : s ++ EmptyString = s.
Proof. induction s as [| c s IH]; simpl; [reflexivity | now rewrite IH]. Qed.

(** X4. Every label is of one of three kinds: the tick as it is; the tick
    as it is followed by "MM" or "B", when the selected scale is B or T and
    the quotient is below one; or the quotient, not below one, followed by
    the name of the selected scale.  So "mil" and "T" only ever follow a
    quotient. *)
Theorem format_ticks_shapes (A : Type) (value : float) (max : option float)
  (p : option A) :
  format_ticks value max p = format_0f value
  \/ (exists s,
         selects (effective_max value max) s /\
         ltb (div value (scale_dict s)) (of_Z 1) = true /\
         (s = B \/ s = T) /\
         format_ticks value max p = format_0f value ++ fallback_suffix s)
  \/ (exists s,
         selects (effective_max value max) s /\
         ltb (div value (scale_dict s)) (of_Z 1) = false /\
         format_ticks value max p =
         format_0f (div value (scale_dict s)) ++ scale_name s).
Proof.
  destruct (eqb value (of_Z 0)) eqn:Hz.
  { left. unfold format_ticks. now rewrite Hz. }
  rewrite (format_ticks_nonzero _ _ _ Hz).
  destruct (selects_or_none (effective_max value max)) as [[s Hsel] | Hnone].
  - rewrite (format_loop_selects _ _ _ Hsel). unfold format_at.
    destruct (ltb (div value (scale_dict s)) (of_Z 1)) eqn:Hlt.
    + destruct s.
      * left. apply append_empty_r.
      * left. apply append_empty_r.
      * right; left. exists B. auto.
      * right; left. exists T. auto.
    + right; right. exists s. auto.
  - left. now rewrite (format_loop_none _ _ Hnone).
Qed.

(** ** [truncate_label]: repeated use, lengths, negative lengths *)

Lemma substring_all (s : string) : substring 0 (String.length s) s = s.
Proof. induction s as [| c s IH]; simpl; [reflexivity | now rewrite IH]. Qed.

Lemma substring_app_prefix (pre rest : string) :
  substring 0 (String.length pre) (pre ++ rest) = pre.
Proof.
  induction pre as [| c pre IH]; simpl; [now destruct rest | now rewrite IH].
Qed.

(** The two outcomes for a length that is not negative. *)
Lemma truncate_label_cases (s : string) (L : nat) :
  ((String.length s <= L)%nat /\ truncate_label s (Some (Z.of_nat L)) = s) \/
  ((L < String.length s)%nat /\
   truncate_label s (Some (Z.of_nat L)) = substring 0 L s ++ "..." /\
   String.length (substring 0 L s) = L).
Proof.
  unfold truncate_label.
  destruct (Z.ltb_spec (Z.of_nat L) (len s)) as [H | H]; unfold len in H.
  - right. split; [lia |].
    rewrite slice_to_prefix by (unfold len; lia). rewrite Nat2Z.id.
    split; [reflexivity |].
    destruct (substring_prefix L s) as (post & _ & Hl); [lia | exact Hl].
  - left. split; [lia | reflexivity].
Qed.

(** X5. Truncating a truncated label again, to the same length, changes
    nothing. *)
Theorem truncate_label_idempotent (s : string) (L : nat) :
  truncate_label (truncate_label s (Some (Z.of_nat L))) (Some (Z.of_nat L)) =
  truncate_label s (Some (Z.of_nat L)).
Proof.
  destruct (truncate_label_cases s L) as [[Hle ->] | (Hlt & -> & Hl)].
  - destruct (truncate_label_cases s L) as [[_ E] | [Hlt _]]; [exact E | lia].
  - destruct (truncate_label_cases (substring 0 L s ++ "...") L)
      as [[Hle _] | (_ & -> & _)].
    + rewrite length_app, Hl in Hle. simpl in Hle. lia.
    + rewrite <- Hl at 1. now rewrite substring_app_prefix.
Qed.

(** X6. The result has at most [L + 3] characters and at most two more
    than the label; it is longer than the label exactly when the label has
    [L + 1] or [L + 2] characters. *)
Theorem truncate_label_length (s : string) (L : nat) :
  let r := truncate_label s (Some (Z.of_nat L)) in
  (String.length r <= L + 3)%nat /\
  (String.length r <= String.length s + 2)%nat /\
  ((String.length s < String.length r)%nat <->
   (L < String.length s < L + 3)%nat).
Proof.
  cbv zeta.
  destruct (truncate_label_cases s L) as [[Hle ->] | (Hlt & -> & Hl)].
  - lia.
  - rewrite length_app, Hl. simpl. lia.
Qed.

(** X7. A negative length counts from the end: the last [-L] characters
    are dropped, all of them when the label is shorter, and "..." is
    appended in every case, even to the empty label. *)
Theorem truncate_label_negative (s : string) (L : Z) :
  L < 0 ->
  exists pre post,
    s = pre ++ post /\
    len pre = Z.max 0 (len s + L) /\
    truncate_label s (Some L) = pre ++ "...".
Proof.
  intros H. unfold truncate_label, slice_to.
  assert (Hlen : 0 <= len s) by (unfold len; lia).
  destruct (Z.ltb_spec L (len s)); [| lia].
  destruct (Z.ltb_spec L 0); [| lia].
  destruct (substring_prefix (Z.to_nat (Z.max 0 (L + len s))) s)
    as (post & Hs & Hl); [unfold len in *; lia |].
  exists (substring 0 (Z.to_nat (Z.max 0 (L + len s))) s), post.
  split; [exact Hs |]. split; [unfold len in *; lia | reflexivity].
Qed.

Lemma truncate_label_negative_witness :
  exists pre post,
    "abcdef" = pre ++ post /\
    len pre = Z.max 0 (len "abcdef" + -2) /\
    truncate_label "abcdef" (Some (-2)) = pre ++ "...".
Proof. apply truncate_label_negative. lia. Defined.

(** ** Dictionaries, continued *)

Lemma keys_setitem_present (d : dict) (k : string) (v : value) :
  In k (keys d) -> keys (setitem d k v) = keys d.
Proof.
  induction d as [| [k' v'] d IH]; simpl; [tauto |].
  intros H. destruct (String.eqb_spec k k') as [-> | Hne]; simpl.
  - reflexivity.
  - f_equal. apply IH. destruct H as [E | H]; [congruence | exact H].
Qed.

Lemma keys_setitem_fresh (d : dict) (k : string) (v : value) :
  ~ In k (keys d) -> keys (setitem d k v) = (keys d ++ [k])%list.
Proof.
  intros H. rewrite (setitem_fresh _ _ _ H). unfold keys. now rewrite map_app.
Qed.

Lemma setitem_nodup (d : dict) (k : string) (v : value) :
  NoDup (keys d) -> NoDup (keys (setitem d k v)).
Proof.
  intros H. destruct (in_dec string_dec k (keys d)) as [Hin | Hout].
  - now rewrite keys_setitem_present.
  - rewrite keys_setitem_fresh by assumption.
    apply NoDup_app; [exact H | repeat constructor; simpl; tauto |].
    intros x Hx [E | []]. subst x. contradiction.
Qed.

(** Two dictionaries with the same keys in the same order and the same
    value under each key are the same. *)
Lemma dict_ext (d1 d2 : dict) :
  keys d1 = keys d2 ->
  NoDup (keys d1) ->
  (forall k, lookup k d1 = lookup k d2) ->
  d1 = d2.
Proof.
  revert d2. induction d1 as [| [k1 v1] d1 IH]; intros [| [k2 v2] d2];
    simpl; try discriminate; [reflexivity |].
  intros [= -> Hk] Hnd Hl. inversion Hnd as [| ? ? Hout Hnd']; subst.
  pose proof (Hl k2) as H2. simpl in H2. rewrite String.eqb_refl in H2.
  injection H2 as ->. f_equal. apply IH; [exact Hk | exact Hnd' |].
  intros k. specialize (Hl k). simpl in Hl.
  destruct (String.eqb k k2) eqn:E; [| exact Hl].
  apply String.eqb_eq in E. rewrite E.
  rewrite (proj2 (lookup_none_iff k2 d1) Hout).
  rewrite Hk in Hout. now rewrite (proj2 (lookup_none_iff k2 d2) Hout).
Qed.

Lemma update_fresh (other d : dict) :
  NoDup (keys d ++ keys other) -> update d other = (d ++ other)%list.
Proof.
  unfold update. revert d.
  induction other as [| [k v] other IH]; intros d H; simpl.
  - now rewrite app_nil_r.
  - simpl in H. rewrite setitem_fresh.
    + rewrite IH; [now rewrite <- app_assoc |].
      unfold keys in *. rewrite map_app, <- app_assoc. exact H.
    + intros Hin. apply NoDup_remove_2 in H. apply H.
      apply in_or_app. now left.
Qed.

Lemma for_each_app {A S : Type} (step : S -> A -> result S)
  (xs ys : list A) (acc : S) :
  for_each step (xs ++ ys) acc =
  (acc' <- for_each step xs acc ;; for_each step ys acc').
Proof.
  revert acc. induction xs as [| x xs IH]; intros acc; simpl; [reflexivity |].
  destruct (step acc x); simpl; [apply IH | reflexivity].
Qed.

(** ** [My_styles]: what the constructor keeps, and how it fails *)

Lemma update_style_for_dict_keys (kwargs : list (string * dict))
  (self self' : instance) :
  My_styles.update_style_for_dict self kwargs = Ok self' ->
  keys self' = keys self.
Proof.
  unfold My_styles.update_style_for_dict. revert self.
  induction kwargs as [| [k o] kwargs IH]; intros self; simpl.
  - now intros [= <-].
  - destruct (contains k self) eqn:Hc; simpl.
    + destruct (getattr self k) as [attr | e]; simpl; [| discriminate].
      destruct (update_method attr o) as [attr' | e]; simpl; [| discriminate].
      intros H. rewrite (IH _ H).
      apply keys_setitem_present. now apply contains_true_iff.
    + apply IH.
Qed.

(** A successful construction, split at the reading of the preset. *)
Lemma init_ok_inv (estilo : value) (type_style : string)
  (kwargs : list (string * dict)) (self : instance) :
  My_styles.__init__ estilo type_style kwargs = Ok self ->
  exists preset_self,
    My_styles.__init__ estilo type_style [] = Ok preset_self /\
    My_styles.update_style_for_dict preset_self kwargs = Ok self.
Proof.
  rewrite !init_after_read.
  destruct (My_styles.read_styles _ _) as [s | e]; simpl; [| discriminate].
  unfold call_method.
  destruct (contains "update_style_for_dict" s); [discriminate |].
  intros H. exists s. split; [reflexivity | exact H].
Qed.

(** X8. Whatever the overrides, a successful construction leaves the
    attributes of the preset, in their order: no override adds, removes or
    moves one. *)
Theorem overrides_keep_attribute_names (estilo : value)
  (type_style : string) (kwargs : list (string * dict)) (self : instance) :
  My_styles.__init__ estilo type_style kwargs = Ok self ->
  exists preset_self,
    My_styles.__init__ estilo type_style [] = Ok preset_self /\
    keys self = keys preset_self.
Proof.
  intros H. destruct (init_ok_inv _ _ _ _ H) as (ps & Hps & Hrun).
  exists ps. split; [exact Hps |].
  exact (update_style_for_dict_keys _ _ _ Hrun).
Qed.

Lemma overrides_keep_attribute_names_witness :
  exists preset_self,
    My_styles.__init__ sample_estilo "heatmap" [] = Ok preset_self /\
    keys [(My_styles.type_style_attr, VStr "heatmap");
          ("estilo", VDict [("style", VStr "white")]);
          ("tamanho", VDict [("figsize", VList [VInt 8; VInt 6])]);
          ("titulo", VDict [("label", VStr "Correlations")]);
          ("grafico", VDict [("annot", VBool false);
                             ("cmap", VStr "coolwarm");
                             ("linewidths", VInt 1)])] =
    keys preset_self.
Proof.
  exact (overrides_keep_attribute_names sample_estilo "heatmap"
           [("grafico", [("annot", VBool false); ("linewidths", VInt 1)]);
            ("eixos", [("xlabel", VStr "x")]);
            ("titulo", [("label", VStr "Correlations")])]
           _ eq_refl).
Defined.

(** X9. How reading the preset fails, whatever the overrides: a file
    whose content is no object gives [TypeError], an object without the
    chart type gives [KeyError], and a chart type whose entry is no object
    gives [AttributeError]. *)
Theorem read_styles_failures (type_style : string)
  (kwargs : list (string * dict)) :
  (forall estilo,
      not_mapping estilo ->
      My_styles.__init__ estilo type_style kwargs = Raise TypeError)
  /\ (forall top,
         lookup type_style top = None ->
         My_styles.__init__ (VDict top) type_style kwargs = Raise KeyError)
  /\ (forall top preset,
         lookup type_style top = Some preset ->
         not_mapping preset ->
         My_styles.__init__ (VDict top) type_style kwargs =
         Raise AttributeError).
Proof.
  split; [| split].
  - intros estilo H. rewrite init_after_read, read_styles_fresh.
    unfold preset_sections.
    destruct estilo; simpl in H; try contradiction; reflexivity.
  - intros top H. rewrite init_after_read, read_styles_fresh.
    unfold preset_sections. simpl. now rewrite H.
  - intros top preset H Hn. rewrite init_after_read, read_styles_fresh.
    unfold preset_sections. simpl. rewrite H. simpl.
    destruct preset; simpl in Hn; try contradiction; reflexivity.
Qed.

Lemma read_styles_failures_witness :
  My_styles.__init__ (VList []) "boxplot" [] = Raise TypeError /\
  My_styles.__init__ sample_estilo "barplot"
    [("grafico", [("alpha", VInt 1)])] = Raise KeyError /\
  My_styles.__init__ (VDict [("boxplot", VNone)]) "boxplot" [] =
  Raise AttributeError.
Proof.
  split; [| split].
  - apply (proj1 (read_styles_failures "boxplot" [])). exact I.
  - unfold sample_estilo.
    apply (proj1 (proj2 (read_styles_failures "barplot" _))). reflexivity.
  - apply (proj2 (proj2 (read_styles_failures "boxplot" []))
             [("boxplot", VNone)] VNone); [reflexivity | exact I].
Defined.

(** X10. An override that names an attribute holding no mapping stops the
    construction with [AttributeError], when the overrides before it
    went through; the overrides after it are not looked at.  The private
    attribute [_My_styles__type_style], a text, is such an attribute. *)
Theorem override_of_non_mapping_raises (estilo : value) (type_style : string)
  (before after : list (string * dict)) (k : string) (o : dict)
  (self : instance) (v : value) :
  My_styles.__init__ estilo type_style before = Ok self ->
  lookup k self = Some v ->
  not_mapping v ->
  My_styles.__init__ estilo type_style (before ++ (k, o) :: after) =
  Raise AttributeError.
Proof.
  intros Hinit Hk Hv.
  destruct (init_ok_inv _ _ _ _ Hinit) as (ps & Hps & Hrun).
  rewrite (init_with_overrides _ _ _ _ Hps).
  unfold My_styles.update_style_for_dict in *.
  rewrite for_each_app, Hrun. simpl.
  unfold contains, getattr. rewrite Hk. simpl.
  destruct v; simpl in Hv; try contradiction; reflexivity.
Qed.

Lemma override_of_non_mapping_raises_witness :
  My_styles.__init__ sample_estilo "boxplot"
    ([("grafico", [("alpha", VInt 1)])] ++
     (My_styles.type_style_attr, [("x", VInt 0)]) ::
     [("titulo", [("label", VStr "late")])]) = Raise AttributeError.
Proof.
  refine (override_of_non_mapping_raises sample_estilo "boxplot"
            [("grafico", [("alpha", VInt 1)])]
            [("titulo", [("label", VStr "late")])]
            My_styles.type_style_attr [("x", VInt 0)] _ (VStr "boxplot")
            eq_refl eq_refl I).
Defined.

(** *** Order of the overrides *)

Lemma lookup_permutation {V : Type} (l l' : list (string * V)) (k : string) :
  Permutation l l' -> NoDup (keys l) -> lookup k l = lookup k l'.
Proof.
  intros HP Hnd.
  assert (Hnd' : NoDup (keys l')).
  { unfold keys in *. eapply Permutation_NoDup; [| exact Hnd].
    now apply Permutation_map. }
  destruct (lookup k l) as [v |] eqn:E.
  - symmetry. apply lookup_in; [exact Hnd' |].
    apply (Permutation_in _ HP). clear - E.
    induction l as [| [k' v'] l IH]; simpl in E; [discriminate |].
    destruct (String.eqb_spec k k') as [-> | Hne].
    + injection E as ->. now left.
    + right. now apply IH.
  - symmetry. apply lookup_none_iff. apply lookup_none_iff in E.
    intros Hin. apply E. unfold keys in *.
    apply (Permutation_in k (Permutation_sym (Permutation_map fst HP))), Hin.
Qed.

(** The attributes of an instance have distinct names. *)
Lemma init_keys_nodup (estilo : value) (type_style : string)
  (kwargs : list (string * dict)) (self : instance) :
  My_styles.__init__ estilo type_style kwargs = Ok self -> NoDup (keys self).
Proof.
  intros H. destruct (init_ok_inv _ _ _ _ H) as (ps & Hps & Hrun).
  rewrite (update_style_for_dict_keys _ _ _ Hrun). clear H Hrun kwargs self.
  destruct (init_without_overrides _ _ _ Hps) as [Hread _].
  rewrite read_styles_fresh in Hread.
  destruct (preset_sections estilo type_style) as [sections | e];
    simpl in Hread; [| discriminate].
  assert (G : forall self0 : instance,
             NoDup (keys self0) ->
             for_each (fun self kv => setattr self (fst kv) (snd kv))
                      sections self0 = Ok ps ->
             NoDup (keys ps)).
  { clear Hread. induction sections as [| [k v] sections IH];
      intros self0 H0; simpl.
    - now intros [= <-].
    - unfold setattr at 1. destruct (intercepted k); simpl; [discriminate |].
      apply IH. now apply setitem_nodup. }
  apply (G [(My_styles.type_style_attr, VStr type_style)]);
    [| exact Hread].
  apply NoDup_cons; [apply in_nil | apply NoDup_nil].
Qed.

(** A run of the overrides that succeeds met a mapping under every name
    it found. *)
Lemma update_style_for_dict_ok_inv (kwargs : list (string * dict))
  (self self' : instance) :
  NoDup (keys kwargs) ->
  My_styles.update_style_for_dict self kwargs = Ok self' ->
  forall k o v, In (k, o) kwargs -> lookup k self = Some v ->
                exists d, v = VDict d.
Proof.
  unfold My_styles.update_style_for_dict. revert self.
  induction kwargs as [| [k1 o1] kwargs IH]; intros self Hnd Hrun k o v Hin Hl;
    [destruct Hin |].
  inversion Hnd as [| ? ? Hk1 Hnd']; subst. simpl in Hrun.
  destruct Hin as [[= -> ->] | Hin].
  - unfold contains, getattr in Hrun. rewrite Hl in Hrun. simpl in Hrun.
    destruct v; simpl in Hrun; try discriminate. eexists; reflexivity.
  - assert (Hne : k1 <> k).
    { intros ->. apply Hk1. change (In (fst (k, o)) (map fst kwargs)).
      now apply in_map. }
    destruct (contains k1 self); simpl in Hrun.
    + destruct (getattr self k1) as [attr | e]; simpl in Hrun;
        [| discriminate].
      destruct (update_method attr o1) as [attr' | e]; simpl in Hrun;
        [| discriminate].
      apply (IH _ Hnd' Hrun k o v Hin).
      now rewrite lookup_setitem_neq.
    + apply (IH _ Hnd' Hrun k o v Hin Hl).
Qed.

(** X11. The order in which the overrides are given does not matter: a
    construction that succeeds gives the same instance for every
    reordering of its keyword arguments. *)
Theorem override_order_irrelevant (estilo : value) (type_style : string)
  (kwargs kwargs' : list (string * dict)) (self : instance) :
  NoDup (keys kwargs) ->
  Permutation kwargs kwargs' ->
  My_styles.__init__ estilo type_style kwargs = Ok self ->
  My_styles.__init__ estilo type_style kwargs' = Ok self.
Proof.
  intros Hnd HP Hinit.
  destruct (init_ok_inv _ _ _ _ Hinit) as (ps & Hps & Hrun).
  rewrite (init_with_overrides _ _ _ _ Hps).
  pose proof (update_style_for_dict_ok_inv _ _ _ Hnd Hrun) as Hmap.
  assert (Hnd' : NoDup (keys kwargs')).
  { unfold keys in *. eapply Permutation_NoDup; [| exact Hnd].
    now apply Permutation_map. }
  destruct (update_style_for_dict_lookup kwargs ps Hnd Hmap)
    as (s1 & Hrun1 & Hl1).
  destruct (update_style_for_dict_lookup kwargs' ps Hnd') as (s2 & Hrun2 & Hl2).
  { intros k o v Hin. apply (Hmap k o v).
    apply (Permutation_in _ (Permutation_sym HP) Hin). }
  rewrite Hrun in Hrun1. injection Hrun1 as <-.
  rewrite Hrun2. f_equal. apply dict_ext.
  - rewrite (update_style_for_dict_keys _ _ _ Hrun2).
    now rewrite (update_style_for_dict_keys _ _ _ Hrun).
  - rewrite (update_style_for_dict_keys _ _ _ Hrun2).
    exact (init_keys_nodup _ _ _ _ Hps).
  - intros k. rewrite Hl1, Hl2.
    now rewrite (lookup_permutation _ _ k HP Hnd).
Qed.

Lemma override_order_irrelevant_witness :
  exists self,
    My_styles.__init__ sample_estilo "boxplot"
      [("titulo", [("label", VStr "Lorem Ipsum")]);
       ("grafico", [("y", VStr "Lorem Y")])] = Ok self /\
    My_styles.__init__ sample_estilo "boxplot"
      [("grafico", [("y", VStr "Lorem Y")]);
       ("titulo", [("label", VStr "Lorem Ipsum")])] = Ok self.
Proof.
  eexists. split; [reflexivity |].
  apply (override_order_irrelevant sample_estilo "boxplot"
           [("titulo", [("label", VStr "Lorem Ipsum")]);
            ("grafico", [("y", VStr "Lorem Y")])]).
  - repeat constructor; simpl; intuition discriminate.
  - apply perm_swap.
  - reflexivity.
Defined.

(** X12. Reading a preset whose sections have distinct names, none of
    them intercepted by the interpreter, none the name of the method
    [update_style_for_dict] or of the private attribute, gives the
    instance that holds the chart type under the private name and then
    every section under its own name, with its value, in the order of the
    file. *)
Theorem preset_becomes_attributes (estilo : value) (type_style : string)
  (sections : dict) :
  preset_sections estilo type_style = Ok sections ->
  NoDup (keys sections) ->
  (forall k, In k (keys sections) -> intercepted k = false) ->
  ~ In "update_style_for_dict" (keys sections) ->
  ~ In My_styles.type_style_attr (keys sections) ->
  My_styles.__init__ estilo type_style [] =
  Ok ((My_styles.type_style_attr, VStr type_style) :: sections).
Proof.
  intros Hs Hnd Hint Hm Hp.
  rewrite init_after_read, read_styles_fresh, Hs. simpl.
  rewrite (for_each_setattr_update _ _ Hint). simpl.
  rewrite update_fresh by (simpl; now constructor).
  unfold call_method. simpl.
  rewrite (proj2 (contains_false_iff _ _)); [reflexivity |].
  simpl. intros [E | Hin]; [discriminate E | contradiction].
Qed.

Lemma preset_becomes_attributes_witness :
  My_styles.__init__ sample_estilo "heatmap" [] =
  Ok [(My_styles.type_style_attr, VStr "heatmap");
      ("estilo", VDict [("style", VStr "white")]);
      ("tamanho", VDict [("figsize", VList [VInt 8; VInt 6])]);
      ("titulo", VDict [("label", VStr "Heatmap")]);
      ("grafico", VDict [("annot", VBool true); ("cmap", VStr "coolwarm")])].
Proof.
  apply (preset_becomes_attributes sample_estilo "heatmap").
  - reflexivity.
  - repeat constructor; simpl; intuition discriminate.
  - intros k [<- | [<- | [<- | [<- | []]]]]; reflexivity.
  - simpl; intuition discriminate.
  - simpl; intuition discriminate.
Defined.

(** ** [pre_make]: the calls around the drawing step *)

Lemma mbind_emit {B : Type} (c : call) (k : unit -> M B) :
  mbind (emit c) k = (c :: fst (k tt), snd (k tt)).
Proof. unfold mbind, emit. now destruct (k tt). Qed.

Lemma mbind_lift {A B : Type} (r : result A) (k : A -> M B) :
  mbind (lift r) k =
  match r with Ok a => k a | Raise e => ([], Raise e) end.
Proof. unfold mbind, lift. destruct r; [now destruct (k a) | reflexivity]. Qed.

(** The run of the closure, stage by stage. *)
Lemma pre_make_run (func : instance -> M unit) (self : instance) :
  pre_make func self =
  match style_arguments self with
  | Raise e => ([sns_reset_defaults], Raise e)
  | Ok kw1 =>
      match (tamanho <- getattr self "tamanho" ;; unpack tamanho) with
      | Raise e => ([sns_reset_defaults; sns_set kw1], Raise e)
      | Ok kw2 =>
          match (titulo <- getattr self "titulo" ;; unpack titulo) with
          | Raise e =>
              ([sns_reset_defaults; sns_set kw1; plt_figure kw2], Raise e)
          | Ok kw3 =>
              let opening :=
                [sns_reset_defaults; sns_set kw1; plt_figure kw2;
                 plt_title kw3] in
              match func self with
              | (body, Raise e) => ((opening ++ body)%list, Raise e)
              | (body, Ok _) =>
                  match palette_argument self with
                  | Raise e => ((opening ++ body)%list, Raise e)
                  | Ok palette =>
                      ((opening ++ body ++
                        [sns_set_palette palette; plt_show])%list, Ok tt)
                  end
              end
          end
      end
  end.
Proof.
  unfold pre_make. rewrite mbind_emit, mbind_lift.
  destruct (style_arguments self) as [kw1 | e]; [| reflexivity].
  rewrite mbind_emit, mbind_lift.
  destruct (getattr self "tamanho") as [tamanho | e]; [| reflexivity].
  rewrite mbind_lift. simpl bind.
  destruct (unpack tamanho) as [kw2 | e]; [| reflexivity].
  rewrite mbind_emit, mbind_lift.
  destruct (getattr self "titulo") as [titulo | e]; [| reflexivity].
  rewrite mbind_lift. simpl bind.
  destruct (unpack titulo) as [kw3 | e]; [| reflexivity].
  rewrite mbind_emit. unfold mbind at 1.
  destruct (func self) as [body [[] | e]]; [| reflexivity].
  rewrite mbind_lift.
  destruct (palette_argument self) as [palette | e]; simpl;
    [| now rewrite app_nil_r].
  reflexivity.
Qed.

Lemma unpack_ok (v : value) (kw : dict) : unpack v = Ok kw -> v = VDict kw.
Proof. destruct v; simpl; try discriminate. now intros [= ->]. Qed.

Lemma getattr_unpack_ok (self : instance) (name : string) (kw : dict) :
  (v <- getattr self name ;; unpack v) = Ok kw <->
  lookup name self = Some (VDict kw).
Proof.
  unfold getattr. split.
  - destruct (lookup name self) as [v |]; simpl; [| discriminate].
    intros H. now rewrite (unpack_ok _ _ H).
  - now intros ->.
Qed.

(** X13. A run of a decorated [make] that ends without an error made
    these calls, in this order: [reset_defaults], [set] with the options
    of [estilo], [figure] with the section [tamanho], [title] with the
    section [titulo], the calls of the drawing function, [set_palette]
    with the empty dictionary, [show].  The three sections are then
    attributes of the chart, the last two are mappings, and [estilo] is
    the mapping of the options given to [set], or a false value and [set]
    got no option. *)
Theorem pre_make_complete_run (func : instance -> M unit) (self : instance)
  (t : list call) :
  pre_make func self = (t, Ok tt) ->
  exists (estilo : value) (kw1 kw2 kw3 : dict) (body : list call),
    lookup "estilo" self = Some estilo /\
    (estilo = VDict kw1 \/ truthy estilo = Ok false /\ kw1 = []) /\
    lookup "tamanho" self = Some (VDict kw2) /\
    lookup "titulo" self = Some (VDict kw3) /\
    func self = (body, Ok tt) /\
    t = ([sns_reset_defaults; sns_set kw1; plt_figure kw2; plt_title kw3] ++
         body ++ [sns_set_palette (VDict []); plt_show])%list.
Proof.
  rewrite pre_make_run.
  destruct (style_arguments self) as [kw1 | e] eqn:H1; [| discriminate].
  destruct (_ <- getattr self "tamanho" ;; _) as [kw2 | e] eqn:H2;
    [| discriminate].
  destruct (_ <- getattr self "titulo" ;; _) as [kw3 | e] eqn:H3;
    [| discriminate].
  apply getattr_unpack_ok in H2, H3.
  destruct (func self) as [body [[] | e]]; [| discriminate].
  destruct (palette_argument self) as [palette | e] eqn:Hp; [| discriminate].
  intros [= <-].
  rewrite (palette_argument_ok _ _ Hp).
  unfold palette_argument, getattr in Hp.
  unfold style_arguments, contains, getattr in H1.
  destruct (lookup "estilo" self) as [estilo |]; [| discriminate].
  exists estilo, kw1, kw2, kw3, body. simpl in H1.
  repeat split; try assumption.
  destruct (truthy estilo) as [[|] | e]; simpl in H1; try discriminate.
  - left. now apply unpack_ok.
  - right. split; [reflexivity | congruence].
Qed.

Lemma pre_make_complete_run_witness :
  exists (estilo : value) (kw1 kw2 kw3 : dict) (body : list call),
    lookup "estilo" [("estilo", VDict []); ("tamanho", VDict []);
                     ("titulo", VDict [("label", VStr "Heatmap")])] =
    Some estilo /\
    (estilo = VDict kw1 \/ truthy estilo = Ok false /\ kw1 = []) /\
    lookup "tamanho" [("estilo", VDict []); ("tamanho", VDict []);
                      ("titulo", VDict [("label", VStr "Heatmap")])] =
    Some (VDict kw2) /\
    lookup "titulo" [("estilo", VDict []); ("tamanho", VDict []);
                     ("titulo", VDict [("label", VStr "Heatmap")])] =
    Some (VDict kw3) /\
    emit (sns_boxplot []) = (body, Ok tt) /\
    [sns_reset_defaults; sns_set []; plt_figure [];
     plt_title [("label", VStr "Heatmap")]; sns_boxplot [];
     sns_set_palette (VDict []); plt_show] =
    ([sns_reset_defaults; sns_set kw1; plt_figure kw2; plt_title kw3] ++
     body ++ [sns_set_palette (VDict []); plt_show])%list.
Proof.
  apply (pre_make_complete_run (fun _ => emit (sns_boxplot []))
           [("estilo", VDict []); ("tamanho", VDict []);
            ("titulo", VDict [("label", VStr "Heatmap")])]).
  reflexivity.
Defined.

(** X14. A chart without the attribute [estilo] is drawn and never
    shown: the first use of the attribute is guarded and [set] gets no
    option, the second use, after the drawing function, is not guarded
    and ends the run with [AttributeError] before [set_palette] and
    [show]. *)
Theorem missing_style_section_is_not_shown (func : instance -> M unit)
  (self : instance) (kw2 kw3 : dict) (body : list call) :
  lookup "estilo" self = None ->
  lookup "tamanho" self = Some (VDict kw2) ->
  lookup "titulo" self = Some (VDict kw3) ->
  func self = (body, Ok tt) ->
  pre_make func self =
  (([sns_reset_defaults; sns_set []; plt_figure kw2; plt_title kw3] ++
    body)%list, Raise AttributeError).
Proof.
  intros He H2 H3 Hf. rewrite pre_make_run.
  unfold style_arguments, palette_argument, contains, getattr.
  rewrite He, H2, H3, Hf. reflexivity.
Qed.

Lemma missing_style_section_is_not_shown_witness :
  My_boxplot.make
    [("tamanho", VDict [("figsize", VList [VInt 8; VInt 6])]);
     ("titulo", VDict [("label", VStr "Boxplot")]);
     ("grafico", VDict [("y", VStr "y")])] =
  (([sns_reset_defaults; sns_set [];
     plt_figure [("figsize", VList [VInt 8; VInt 6])];
     plt_title [("label", VStr "Boxplot")]] ++
    [sns_boxplot [("y", VStr "y")]])%list, Raise AttributeError).
Proof.
  apply (missing_style_section_is_not_shown My_boxplot.make_body);
    reflexivity.
Defined.

(** X15. When [tamanho] or [titulo] is not an attribute of the chart
    holding a mapping, the run ends with an error before the drawing
    function is entered: the only calls made are [reset_defaults], [set]
    and, when [tamanho] was right, [figure]. *)
Theorem size_and_title_come_before_drawing (func : instance -> M unit)
  (self : instance) :
  (forall kw, lookup "tamanho" self <> Some (VDict kw)) \/
  (forall kw, lookup "titulo" self <> Some (VDict kw)) ->
  exists (t : list call) (e : exn),
    pre_make func self = (t, Raise e) /\
    forall c, In c t ->
              c = sns_reset_defaults \/ (exists kw, c = sns_set kw) \/
              (exists kw, c = plt_figure kw).
Proof.
  intros H. rewrite pre_make_run.
  destruct (style_arguments self) as [kw1 | e].
  2:{ eexists _, e. split; [reflexivity |].
      intros c [<- | []]. now left. }
  destruct (_ <- getattr self "tamanho" ;; _) as [kw2 | e] eqn:H2.
  2:{ eexists _, e. split; [reflexivity |].
      intros c [<- | [<- | []]]; [now left | right; left; now eexists]. }
  destruct (_ <- getattr self "titulo" ;; _) as [kw3 | e] eqn:H3.
  2:{ eexists _, e. split; [reflexivity |].
      intros c [<- | [<- | [<- | []]]];
        [now left | right; left; now eexists | right; right; now eexists]. }
  apply getattr_unpack_ok in H2, H3.
  destruct H as [H | H]; [now destruct (H kw2) | now destruct (H kw3)].
Qed.

Lemma size_and_title_come_before_drawing_witness :
  exists (t : list call) (e : exn),
    My_headmap.make [("estilo", VDict [("style", VStr "white")]);
                     ("tamanho", VDict []);
                     ("grafico", VDict [])] = (t, Raise e) /\
    forall c, In c t ->
              c = sns_reset_defaults \/ (exists kw, c = sns_set kw) \/
              (exists kw, c = plt_figure kw).
Proof.
  apply (size_and_title_come_before_drawing My_headmap.make_body).
  right. intros kw. discriminate.
Defined.

(** X16. A run that ends with an error does not show the figure: it
    contains a call of [show] only if the drawing function made one. *)
Theorem failed_run_is_not_shown (func : instance -> M unit) (self : instance)
  (t : list call) (e : exn) :
  pre_make func self = (t, Raise e) ->
  In plt_show t -> In plt_show (fst (func self)).
Proof.
  rewrite pre_make_run.
  destruct (style_arguments self) as [kw1 | e1].
  2:{ intros [= <- _] [E | []]; discriminate E. }
  destruct (_ <- getattr self "tamanho" ;; _) as [kw2 | e2].
  2:{ intros [= <- _] [E | [E | []]]; discriminate E. }
  destruct (_ <- getattr self "titulo" ;; _) as [kw3 | e3].
  2:{ intros [= <- _] [E | [E | [E | []]]]; discriminate E. }
  assert (G : forall body,
             In plt_show
                ([sns_reset_defaults; sns_set kw1; plt_figure kw2;
                  plt_title kw3] ++ body) -> In plt_show body).
  { intros body [E | [E | [E | [E | Hin]]]]; try discriminate E.
    exact Hin. }
  destruct (func self) as [body [[] | e4]]; simpl fst.
  - destruct (palette_argument self); [discriminate |].
    intros [= <- _]. apply G.
  - intros [= <- _]. apply G.
Qed.

Lemma failed_run_is_not_shown_witness : In plt_show (fst (emit plt_show)).
Proof.
  apply (failed_run_is_not_shown (fun _ => emit plt_show)
           [("tamanho", VDict []); ("titulo", VDict [])]
           [sns_reset_defaults; sns_set []; plt_figure []; plt_title [];
            plt_show] AttributeError);
    [reflexivity | simpl; auto 10].
Defined.

(** ** [My_boxplot]: the outlier count and the constructor *)

Lemma ltb_nan_l (x : float) : ltb S754_nan x = false.
Proof. reflexivity. Qed.

Lemma ltb_nan_r (x : float) : ltb x S754_nan = false.
Proof. now destruct x. Qed.

Lemma sub_nan_l (x : float) : sub S754_nan x = S754_nan.
Proof. reflexivity. Qed.

Lemma sub_nan_r (x : float) : sub x S754_nan = S754_nan.
Proof. now destruct x. Qed.

Lemma add_nan_l (x : float) : add S754_nan x = S754_nan.
Proof. reflexivity. Qed.

Lemma add_nan_r (x : float) : add x S754_nan = S754_nan.
Proof. now destruct x. Qed.

Lemma mul_nan_r (x : float) : mul x S754_nan = S754_nan.
Proof. now destruct x. Qed.

Lemma quantidade_outliers_ok `{Pandas} (self : instance) (n : Z) :
  My_boxplot.quantidade_outliers self = Ok n ->
  exists column,
    My_boxplot.y_column self = Ok (VSeries column) /\
    n = Z.of_nat
          (List.length
             (iqr_outliers (Series_quantile column (of_ratio 1 4))
                           (Series_quantile column (of_ratio 3 4)) column)).
Proof.
  unfold My_boxplot.quantidade_outliers.
  destruct (My_boxplot.y_column self) as [[] | e]; simpl;
    try discriminate.
  intros [= <-]. eexists. split; [reflexivity |].
  apply count_outside_filter.
Qed.

Lemma filter_both_length {A : Type} (p q : A -> bool) (l : list A) :
  (forall x, p x = true -> q x = true) ->
  (List.length (filter p l) <= List.length (filter q l))%nat.
Proof.
  intros Hpq. induction l as [| x l IH]; simpl; [lia |].
  destruct (p x) eqn:Hp.
  - rewrite (Hpq _ Hp). simpl. lia.
  - destruct (q x); simpl; lia.
Qed.

Lemma eqb_number (v : float) : v <> S754_nan -> eqb v v = true.
Proof.
  unfold eqb, SFeqb. destruct v as [s | [] | | [] m e]; simpl;
    try reflexivity; try congruence; intros _;
    rewrite Z.compare_refl, Pos.compare_cont_refl; reflexivity.
Qed.
Lemma ltb_number_l (v x : float) : ltb v x = true -> eqb v v = true.
Proof.
  intros H. apply eqb_number. intros ->. discriminate H.
Qed.

Lemma ltb_number_r (v x : float) : ltb x v = true -> eqb v v = true.
Proof.
  intros H. apply eqb_number. intros ->. now destruct x.
Qed.

(** X17. The outlier count lies between 0 and the number of values of
    the column that are numbers: a missing value, NaN, is never counted,
    because both comparisons with the bounds are false for it. *)
Theorem outlier_count_range `{Pandas} (self : instance) (n : Z) :
  My_boxplot.quantidade_outliers self = Ok n ->
  exists column,
    My_boxplot.y_column self = Ok (VSeries column) /\
    0 <= n <=
    Z.of_nat (List.length (filter (fun v => eqb v v) column)).
Proof.
  intros Hq. destruct (quantidade_outliers_ok _ _ Hq) as (column & Hc & ->).
  exists column. split; [exact Hc |]. split; [lia |].
  apply Nat2Z.inj_le. unfold iqr_outliers. apply filter_both_length.
  intros v Hv. apply orb_true_iff in Hv as [Hv | Hv].
  - exact (ltb_number_l _ _ Hv).
  - exact (ltb_number_r _ _ Hv).
Qed.

Lemma outlier_count_range_witness :
  exists column,
    My_boxplot.y_column
      [("grafico",
        VDict [("data",
                VFrame (Table [("y", [of_Z 1; S754_nan; of_Z 2; of_Z 3;
                                      of_Z 4; of_Z 100])]));
               ("y", VStr "y")])] = Ok (VSeries column) /\
    0 <= 1 <= Z.of_nat (List.length (filter (fun v => eqb v v) column)).
Proof.
  apply (@outlier_count_range pandas_linear). reflexivity.
Defined.

Lemma filter_nan_bounds (column : list float) (lower upper : float) :
  lower = S754_nan -> upper = S754_nan ->
  filter (fun v => ltb v lower || ltb upper v) column = [].
Proof.
  intros -> ->. induction column as [| v l IH]; simpl; [reflexivity |].
  rewrite ltb_nan_r. simpl. apply IH.
Qed.

(** X18. When one of the two quartiles is NaN, as [quantile] gives for a
    column without a number, the count is 0: the spread and both bounds
    are NaN and no comparison with them holds. *)
Theorem undefined_quartile_counts_nothing `{Pandas} (self : instance)
  (column : list float) :
  My_boxplot.y_column self = Ok (VSeries column) ->
  Series_quantile column (of_ratio 1 4) = S754_nan \/
  Series_quantile column (of_ratio 3 4) = S754_nan ->
  My_boxplot.quantidade_outliers self = Ok 0.
Proof.
  intros Hc Hq. unfold My_boxplot.quantidade_outliers. rewrite Hc.
  cbn [bind]. cbv zeta. f_equal. rewrite count_outside_filter.
  rewrite filter_nan_bounds; [reflexivity | |].
  - destruct Hq as [-> | ->]; [apply sub_nan_l |].
    rewrite sub_nan_l, mul_nan_r. apply sub_nan_r.
  - destruct Hq as [-> | ->]; [| apply add_nan_l].
    rewrite sub_nan_r, mul_nan_r. apply add_nan_r.
Qed.

Lemma undefined_quartile_counts_nothing_witness :
  @My_boxplot.quantidade_outliers pandas_linear
    [("grafico",
      VDict [("data", VFrame (Table [("y", [S754_nan; S754_nan])]));
             ("y", VStr "y")])] = Ok 0.
Proof.
  apply (@undefined_quartile_counts_nothing pandas_linear _
           [S754_nan; S754_nan]); [reflexivity | left; reflexivity].
Defined.

(** X19. The constructor of [My_boxplot] needs the dataset at once: when
    the chart built by the base class has a labelled title and [grafico]
    lacks the entry [data] or the entry [y], it ends with [KeyError];
    when [data] is a list, as in the demonstration of the module, and [y]
    a text, it ends with [TypeError]. *)
Theorem boxplot_constructor_needs_dataset `{Pandas} (estilo : value)
  (kwargs : list (string * dict)) (self : instance) (titulo grafico : dict)
  (label : value) :
  super_init estilo "boxplot" kwargs = Ok self ->
  lookup "titulo" self = Some (VDict titulo) ->
  lookup "label" titulo = Some label ->
  lookup "grafico" self = Some (VDict grafico) ->
  lookup "quantidade_outliers" self = None ->
  (lookup "data" grafico = None \/ lookup "y" grafico = None ->
   My_boxplot.__init__ estilo kwargs = Raise KeyError) /\
  (forall rows y,
      lookup "data" grafico = Some (VList rows) ->
      lookup "y" grafico = Some (VStr y) ->
      My_boxplot.__init__ estilo kwargs = Raise TypeError).
Proof.
  intros Hs Ht Hl Hg Hm.
  assert (Hrun : My_boxplot.__init__ estilo kwargs =
                 (n <- My_boxplot.quantidade_outliers self ;;
                  label' <- add_str label (My_boxplot.outliers_note n) ;;
                  titulo' <- My_boxplot.setitem_method (VDict titulo)
                               "label" label' ;;
                  Ok (setitem self "titulo" titulo'))).
  { unfold My_boxplot.__init__. rewrite Hs. simpl.
    unfold getattr, call_method, contains. rewrite Ht, Hm. simpl.
    now rewrite Hl. }
  rewrite Hrun.
  unfold My_boxplot.quantidade_outliers, My_boxplot.y_column, getattr.
  rewrite Hg. simpl. split.
  - intros [Hd | Hy].
    + now rewrite Hd.
    + destruct (lookup "data" grafico); [| reflexivity]. simpl.
      now rewrite Hy.
  - intros rows y Hd Hy. now rewrite Hd, Hy.
Qed.

Lemma boxplot_constructor_needs_dataset_witness :
  @My_boxplot.__init__ pandas_linear sample_estilo [] = Raise KeyError /\
  @My_boxplot.__init__ pandas_linear sample_estilo
    [("titulo", [("label", VStr "Lorem Ipsum")]);
     ("grafico",
      [("data", VList [VList [VInt 1; VInt 2; VInt 3; VInt 4; VInt 5]]);
       ("y", VStr "Lorem Y")])] = Raise TypeError.
Proof.
  split.
  - eapply (@boxplot_constructor_needs_dataset pandas_linear sample_estilo []);
      try reflexivity.
    left. reflexivity.
  - eapply (@boxplot_constructor_needs_dataset pandas_linear sample_estilo);
      reflexivity.
Defined.

(** ** [My_headmap]: when no heatmap is drawn *)

Lemma heatmap_make_after_failure (self : instance) (e : exn) :
  My_headmap.make_body self = ([], Raise e) ->
  (exists e', snd (My_headmap.make self) = Raise e') /\
  forall kw, ~ In (sns_heatmap kw) (fst (My_headmap.make self)).
Proof.
  intros Hb. unfold My_headmap.make. split.
  - rewrite pre_make_run, Hb.
    destruct (style_arguments self); [| now eexists].
    destruct (_ <- getattr self "tamanho" ;; _); [| now eexists].
    destruct (_ <- getattr self "titulo" ;; _); now eexists.
  - intros kw Hin. apply pre_make_trace in Hin. rewrite Hb in Hin.
    destruct Hin as [[] | [E | [[? E] | [[? E] | [[? E] | [[? E] | E]]]]]];
      discriminate E.
Qed.

(** X20. The tick labels of the heatmap cannot be set through
    [grafico]: an entry [xticklabels] or [yticklabels] there passes the
    filter and meets the keyword the call already writes out, so that
    the call is a [TypeError] when the dataset and the entries [x] and
    [y] are in place.  The run of [make] ends with an error and no
    heatmap is drawn. *)
Theorem heatmap_tick_labels_clash (self : instance) (grafico : dict)
  (f : frame) (x y : value) :
  lookup "grafico" self = Some (VDict grafico) ->
  NoDup (keys grafico) ->
  lookup "data" grafico = Some (VFrame f) ->
  lookup "x" grafico = Some x ->
  lookup "y" grafico = Some y ->
  lookup "filter_kwargs" self = None ->
  In "xticklabels" (keys grafico) \/ In "yticklabels" (keys grafico) ->
  My_headmap.make_body self = ([], Raise TypeError) /\
  (exists e, snd (My_headmap.make self) = Raise e) /\
  forall kw, ~ In (sns_heatmap kw) (fst (My_headmap.make self)).
Proof.
  intros Hg Hnd Hd Hx Hy Hm Hin.
  assert (Hb : My_headmap.make_body self = ([], Raise TypeError)).
  { unfold My_headmap.make_body, My_headmap.filter_kwargs.
    unfold getattr, call_method, contains. rewrite Hg, Hm.
    do 7 (rewrite mbind_lift; cbv beta iota;
          unfold getitem, My_headmap.correlation_matrix;
          rewrite ?Hd, ?Hx, ?Hy).
    rewrite (decorator_filter_kw_spec _ _ _ Hg Hnd).
    rewrite mbind_lift. unfold keywords.
    match goal with
    | |- context [existsb ?p ?l] =>
        assert (E : existsb p l = true); [| now rewrite E]
    end.
    apply existsb_exists.
    assert (G : forall k, In k (keys grafico) ->
                          in_list k ["data"; "x"; "y"] = false ->
                          In k (keys (filter
                                        (fun kv =>
                                           negb (in_list (fst kv)
                                                   ["data"; "x"; "y"]))
                                        grafico))).
    { intros k Hk Hout. apply contains_true_iff. unfold contains.
      rewrite (lookup_filter_key
                 (fun k => negb (in_list k ["data"; "x"; "y"]))).
      rewrite Hout. simpl. apply contains_true_iff in Hk. exact Hk. }
    destruct Hin as [Hin | Hin].
    - exists "xticklabels". split; [now apply G | reflexivity].
    - exists "yticklabels". split; [now apply G | reflexivity]. }
  split; [exact Hb |]. exact (heatmap_make_after_failure _ _ Hb).
Qed.

Lemma heatmap_tick_labels_clash_witness :
  My_headmap.make_body
    [("grafico",
      VDict [("annot", VBool true); ("data", VFrame sample_frame);
             ("x", VStr "auto"); ("y", VStr "auto");
             ("xticklabels", VBool false)])] = ([], Raise TypeError) /\
  (exists e,
      snd (My_headmap.make
             [("grafico",
               VDict [("annot", VBool true); ("data", VFrame sample_frame);
                      ("x", VStr "auto"); ("y", VStr "auto");
                      ("xticklabels", VBool false)])]) = Raise e) /\
  forall kw,
    ~ In (sns_heatmap kw)
         (fst (My_headmap.make
                 [("grafico",
                   VDict [("annot", VBool true);
                          ("data", VFrame sample_frame);
                          ("x", VStr "auto"); ("y", VStr "auto");
                          ("xticklabels", VBool false)])])).
Proof.
  eapply heatmap_tick_labels_clash; try reflexivity.
  - repeat constructor; simpl; intuition discriminate.
  - left. simpl. tauto.
Defined.

(** X21. The heatmap needs the entries [data], [x] and [y] of
    [grafico] when [make] runs, not before: without [data], or with a
    dataset and without [x] or [y], the drawing step is a [KeyError], the
    run of [make] ends with an error and no heatmap is drawn. *)
Theorem heatmap_needs_data_and_labels (self : instance) (grafico : dict) :
  lookup "grafico" self = Some (VDict grafico) ->
  lookup "data" grafico = None \/
  (exists f, lookup "data" grafico = Some (VFrame f) /\
             (lookup "x" grafico = None \/ lookup "y" grafico = None)) ->
  My_headmap.make_body self = ([], Raise KeyError) /\
  (exists e, snd (My_headmap.make self) = Raise e) /\
  forall kw, ~ In (sns_heatmap kw) (fst (My_headmap.make self)).
Proof.
  intros Hg Hmiss.
  assert (Hb : My_headmap.make_body self = ([], Raise KeyError)).
  { unfold My_headmap.make_body, getattr. rewrite Hg.
    rewrite mbind_lift. cbv beta iota. unfold getitem at 1.
    destruct Hmiss as [Hd | (f & Hd & Hxy)]; rewrite Hd;
      rewrite mbind_lift; [reflexivity |].
    cbv beta iota. unfold My_headmap.correlation_matrix.
    do 2 (rewrite mbind_lift; cbv beta iota). unfold getitem at 1.
    destruct (lookup "x" grafico) as [x |] eqn:Hx; rewrite mbind_lift;
      [| reflexivity].
    destruct Hxy as [Hx' | Hy]; [discriminate Hx' |].
    cbv beta iota. rewrite mbind_lift. cbv beta iota.
    unfold getitem at 1. rewrite Hy. now rewrite mbind_lift. }
  split; [exact Hb |]. exact (heatmap_make_after_failure _ _ Hb).
Qed.

Lemma heatmap_needs_data_and_labels_witness :
  exists self,
    My_headmap.__init__ sample_estilo [] = Ok self /\
    My_headmap.make_body self = ([], Raise KeyError) /\
    (exists e, snd (My_headmap.make self) = Raise e) /\
    forall kw, ~ In (sns_heatmap kw) (fst (My_headmap.make self)).
Proof.
  eexists. split; [reflexivity |].
  eapply heatmap_needs_data_and_labels; [reflexivity |].
  left. reflexivity.
Defined.

(** ** [fast_instance]: the shorthand for the keyword arguments *)

Lemma lookup_cons_neq {V : Type} (k k' : string) (v : V)
  (d : list (string * V)) :
  k <> k' -> lookup k ((k', v) :: d) = lookup k d.
Proof. intros H. simpl. now rewrite (proj2 (String.eqb_neq k k') H). Qed.

(** The part [grafico] of the result, entry by entry. *)
Lemma fast_instance_grafico (data x y title : value) :
  exists part,
    lookup "grafico" (fast_instance data x y title) = Some part /\
    NoDup (keys part) /\
    lookup "data" part = Some data /\
    lookup "x" part = (if is_not_none x then Some x else None) /\
    lookup "y" part = (if is_not_none y then Some y else None) /\
    forall k, k <> "data" -> k <> "x" -> k <> "y" -> lookup k part = None.
Proof.
  unfold fast_instance. simpl fold_left.
  destruct (is_not_none x), (is_not_none y), (is_not_none title);
    simpl; eexists; (split; [reflexivity |]);
    (split; [repeat constructor; simpl; intuition discriminate |]);
    repeat (split; [reflexivity |]); intros k H1 H2 H3;
    rewrite ?lookup_cons_neq by assumption; reflexivity.
Qed.

Lemma fast_instance_titulo (data x y title : value) :
  lookup "titulo" (fast_instance data x y title) =
  (if is_not_none title then Some [("label", title)] else None).
Proof.
  unfold fast_instance. destruct (is_not_none title); reflexivity.
Qed.

Lemma fast_instance_keys (data x y title : value) :
  NoDup (keys (fast_instance data x y title)) /\
  forall k, In k (keys (fast_instance data x y title)) ->
            k = "grafico" \/ k = "titulo".
Proof.
  unfold fast_instance. destruct (is_not_none title); simpl; split;
    try (repeat constructor; simpl; intuition discriminate);
    intuition auto.
Qed.

(** X22. Given to a constructor, the result of [fast_instance] sets
    the entry [data] of the section [grafico], the entries [x] and [y]
    when they are given, and the entry [label] of the section [titulo]
    when a title is given; an argument left out keeps the entry of the
    preset, and every other option and every other section of the preset
    stays as it is. *)
Theorem fast_instance_overrides (estilo : value) (type_style : string)
  (data x y title : value) (preset_self : instance) (grafico titulo : dict) :
  My_styles.__init__ estilo type_style [] = Ok preset_self ->
  lookup "grafico" preset_self = Some (VDict grafico) ->
  lookup "titulo" preset_self = Some (VDict titulo) ->
  exists (self : instance) (grafico' titulo' : dict),
    My_styles.__init__ estilo type_style (fast_instance data x y title) =
    Ok self /\
    keys self = keys preset_self /\
    lookup "grafico" self = Some (VDict grafico') /\
    lookup "titulo" self = Some (VDict titulo') /\
    (forall k, k <> "grafico" -> k <> "titulo" ->
               lookup k self = lookup k preset_self) /\
    lookup "data" grafico' = Some data /\
    lookup "x" grafico' =
    (if is_not_none x then Some x else lookup "x" grafico) /\
    lookup "y" grafico' =
    (if is_not_none y then Some y else lookup "y" grafico) /\
    (forall k, k <> "data" -> k <> "x" -> k <> "y" ->
               lookup k grafico' = lookup k grafico) /\
    lookup "label" titulo' =
    (if is_not_none title then Some title else lookup "label" titulo) /\
    (forall k, k <> "label" -> lookup k titulo' = lookup k titulo).
Proof.
  intros Hps Hg Ht.
  destruct (fast_instance_keys data x y title) as [Hnd Hkeys].
  destruct (fast_instance_grafico data x y title)
    as (part & Hpart & Hpnd & Hpd & Hpx & Hpy & Hpo).
  pose proof (fast_instance_titulo data x y title) as Htit.
  destruct (update_style_for_dict_lookup
              (fast_instance data x y title) preset_self Hnd)
    as (self & Hrun & Hl).
  { intros k o v Hin Hk.
    assert (Hk' : In k (keys (fast_instance data x y title))).
    { change (In (fst (k, o)) (map fst (fast_instance data x y title))).
      now apply in_map. }
    destruct (Hkeys k Hk') as [-> | ->]; rewrite Hk in *.
    - injection Hg as ->. now eexists.
    - injection Ht as ->. now eexists. }
  exists self, (update grafico part),
    (if is_not_none title then update titulo [("label", title)] else titulo).
  split; [now rewrite (init_with_overrides _ _ _ _ Hps) |].
  split; [exact (update_style_for_dict_keys _ _ _ Hrun) |].
  split; [now rewrite Hl, Hpart, Hg |].
  split; [rewrite Hl, Htit, Ht; now destruct (is_not_none title) |].
  split.
  { intros k H1 H2. rewrite Hl.
    destruct (lookup k (fast_instance data x y title)) eqn:E;
      [| reflexivity].
    assert (Hk : In k (keys (fast_instance data x y title))).
    { apply contains_true_iff. unfold contains. now rewrite E. }
    destruct (Hkeys k Hk); contradiction. }
  split; [exact (lookup_update_key _ _ _ _ Hpnd Hpd) |].
  split.
  { destruct (is_not_none x).
    - exact (lookup_update_key _ _ _ _ Hpnd Hpx).
    - exact (lookup_update_other _ _ _ Hpx). }
  split.
  { destruct (is_not_none y).
    - exact (lookup_update_key _ _ _ _ Hpnd Hpy).
    - exact (lookup_update_other _ _ _ Hpy). }
  split.
  { intros k H1 H2 H3. apply lookup_update_other. now apply Hpo. }
  destruct (is_not_none title).
  - split; [apply lookup_setitem_eq |].
    intros k Hk. apply lookup_update_other.
    now rewrite lookup_cons_neq by assumption.
  - split; [reflexivity | reflexivity].
Qed.

Lemma fast_instance_overrides_witness :
  exists (self : instance) (grafico' titulo' : dict),
    My_styles.__init__ sample_estilo "boxplot"
      (fast_instance
         (VList [VList [VInt 1; VInt 2; VInt 3; VInt 4; VInt 5]])
         VNone (VStr "Lorem Y") (VStr "Lorem Ipsum")) = Ok self /\
    keys self =
    [My_styles.type_style_attr; "estilo"; "tamanho"; "titulo"; "grafico"] /\
    lookup "grafico" self = Some (VDict grafico') /\
    lookup "titulo" self = Some (VDict titulo') /\
    (forall k, k <> "grafico" -> k <> "titulo" ->
               lookup k self =
               lookup k
                 [(My_styles.type_style_attr, VStr "boxplot");
                  ("estilo", VDict [("style", VStr "whitegrid");
                                    ("palette", VStr "pastel")]);
                  ("tamanho", VDict [("figsize", VList [VInt 8; VInt 6])]);
                  ("titulo", VDict [("label", VStr "Boxplot");
                                    ("fontsize", VInt 14)]);
                  ("grafico", VDict [("color", VStr "skyblue");
                                     ("width", VFloat (of_ratio 1 2))])]) /\
    lookup "data" grafico' =
    Some (VList [VList [VInt 1; VInt 2; VInt 3; VInt 4; VInt 5]]) /\
    lookup "x" grafico' = None /\
    lookup "y" grafico' = Some (VStr "Lorem Y") /\
    (forall k, k <> "data" -> k <> "x" -> k <> "y" ->
               lookup k grafico' =
               lookup k [("color", VStr "skyblue");
                         ("width", VFloat (of_ratio 1 2))]) /\
    lookup "label" titulo' = Some (VStr "Lorem Ipsum") /\
    (forall k, k <> "label" ->
               lookup k titulo' =
               lookup k [("label", VStr "Boxplot"); ("fontsize", VInt 14)]).
Proof.
  apply (fast_instance_overrides sample_estilo "boxplot"
           (VList [VList [VInt 1; VInt 2; VInt 3; VInt 4; VInt 5]])
           VNone (VStr "Lorem Y") (VStr "Lorem Ipsum")
           [(My_styles.type_style_attr, VStr "boxplot");
            ("estilo", VDict [("style", VStr "whitegrid");
                              ("palette", VStr "pastel")]);
            ("tamanho", VDict [("figsize", VList [VInt 8; VInt 6])]);
            ("titulo", VDict [("label", VStr "Boxplot");
                              ("fontsize", VInt 14)]);
            ("grafico", VDict [("color", VStr "skyblue");
                               ("width", VFloat (of_ratio 1 2))])]
           [("color", VStr "skyblue"); ("width", VFloat (of_ratio 1 2))]
           [("label", VStr "Boxplot"); ("fontsize", VInt 14)]);
    reflexivity.
Defined.

(** ** A section named like a method *)

Lemma keys_update_left (other d : dict) (k : string) :
  In k (keys d) -> In k (keys (update d other)).
Proof.
  unfold update. revert d.
  induction other as [| [k' v'] other IH]; intros d H; simpl; [exact H |].
  apply IH. apply keys_setitem. now right.
Qed.

Lemma keys_update_right (other d : dict) (k : string) :
  In k (keys other) -> In k (keys (update d other)).
Proof.
  unfold update. revert d.
  induction other as [| [k' v'] other IH]; intros d H; simpl in *;
    [destruct H |].
  destruct H as [<- | H]; [| now apply IH].
  apply (keys_update_left other). apply keys_setitem. now left.
Qed.

(** X23. A preset with a section named [update_style_for_dict] cannot be
    loaded: [read_styles] stores the section as an attribute of that
    name, the attribute hides the method, and the call of the method that
    ends the constructor finds a dictionary, which cannot be called.  The
    construction ends with [TypeError] whatever the overrides are, also
    without any. *)
Theorem section_named_like_method (estilo : value) (type_style : string)
  (sections : dict) (kwargs : list (string * dict)) :
  preset_sections estilo type_style = Ok sections ->
  (forall k, In k (keys sections) -> intercepted k = false) ->
  In "update_style_for_dict" (keys sections) ->
  My_styles.__init__ estilo type_style kwargs = Raise TypeError.
Proof.
  intros Hs Hint Hin.
  rewrite init_after_read, read_styles_fresh, Hs. simpl.
  rewrite (for_each_setattr_update _ _ Hint). simpl.
  unfold call_method.
  now rewrite (proj2 (contains_true_iff _ _)
                 (keys_update_right sections _ _ Hin)).
Qed.

Lemma section_named_like_method_witness :
  My_styles.__init__
    (VDict [("boxplot",
             VDict [("titulo", VDict [("label", VStr "Boxplot")]);
                    ("update_style_for_dict", VDict [])])])
    "boxplot" [] = Raise TypeError.
Proof.
  apply (section_named_like_method _ "boxplot"
           [("titulo", VDict [("label", VStr "Boxplot")]);
            ("update_style_for_dict", VDict [])]).
  - reflexivity.
  - intros k [<- | [<- | []]]; reflexivity.
  - simpl. tauto.
Defined.
